(** * gnome15: the desktop component helper (g15desktop.py)

    A shallow embedding of [G15Screen] and [G15DesktopComponent]: the local
    cache of remote screens and pages, the attention messages, the DBus
    event callbacks and the connect / disconnect logic.

    - The dictionaries [screens] and [items] are finite maps ([gmap] with
      string keys).  The only loop over one of them, in [_disconnect],
      removes every key of a copy of [screens] and so does the same in any
      order; it goes through the keys in the order of [map_to_list].
    - The dictionary [attention_messages] is iterated for its first key, so
      it is a [dict]: its entries in the order of iteration, which is the
      order of insertion.
    - A method of the component is a computation in a state-and-exception
      monad [M] over the component's attributes.  An exception leaves the
      attributes as they were when it was raised, as in Python.
    - The remote service is a record [Bus] of the DBus methods the component
      calls; each of them either returns or raises [DBusException].
    - The methods a concrete component must implement
      ([rebuild_desktop_component], [attention], ...) and the calls to the
      session bus, GConf and GTK that only register callbacks are recorded,
      in order, in the [calls] log of the component. *)

From stdpp Require Import base option list strings gmap fin_maps pretty.

Local Open Scope Z_scope.

(** ** Exceptions and remote replies *)

Inductive Exn : Type :=
  | KeyError (key : string)
  | DBusException.

(** What a method call over the bus gives back. *)
Inductive Reply (A : Type) : Type :=
  | Returned (a : A)
  | TransportFault.
Arguments Returned {A} a.
Arguments TransportFault {A}.

(** The remote side, as far as [g15desktop] talks to it.  A proxy object is
    identified by its object path. *)
Record Bus : Type := {
  bus_get_object : string → Reply unit;
  GetScreens : string → Reply (list string);
  GetDeviceInformation : string → Reply (string * string * string * string);
  IsAttentionRequested : string → Reply bool;
  GetMessage : string → Reply string;
  GetPageSequenceNumbers : string → Z → Reply (list Z);
  GetPriority : string → Reply Z;
  GetSequenceNumber : string → Reply Z;
  GetTitle : string → Reply string
}.

(** ** class G15Screen *)

Record G15Screen : Type := {
  path : string;
  device_model_fullname : string;
  device_uid : string;
  items : gmap string string;
  message : option string
}.

(** [G15Screen.__init__] *)
Definition G15Screen__init__ (path device_model_fullname device_uid : string)
  : G15Screen :=
  {| path := path;
     device_model_fullname := device_model_fullname;
     device_uid := device_uid;
     items := ∅;
     message := None |}.

Definition set_items (screen : G15Screen) (new_items : gmap string string)
  : G15Screen :=
  {| path := path screen;
     device_model_fullname := device_model_fullname screen;
     device_uid := device_uid screen;
     items := new_items;
     message := message screen |}.

Definition set_message (screen : G15Screen) (m : option string) : G15Screen :=
  {| path := path screen;
     device_model_fullname := device_model_fullname screen;
     device_uid := device_uid screen;
     items := items screen;
     message := m |}.

(** ** What the component does to the outside *)

(** The bound methods that are handed out as callbacks. *)
Inductive Callback : Type :=
  | cb_add_screen
  | cb_remove_screen
  | cb_page_created
  | cb_page_title_changed
  | cb_page_deleting
  | cb_attention_requested
  | cb_attention_cleared
  | cb_name_owner_changed
  | cb_indicator_options_changed
  | cb_theme_changed.

Inductive Call : Type :=
  (* the functions that must be implemented *)
  | initialise_desktop_component
  | rebuild_desktop_component
  | clear_attention
  | attention (message : option string)
  | icons_changed
  | options_changed
  (* session_bus *)
  | add_signal_receiver (cb : Callback) (dbus_interface signal_name : string)
  | remove_signal_receiver (cb : Callback) (dbus_interface signal_name : string)
  (* traceback, conf_client, gtk icon theme *)
  | print_exc
  | notify_add (key : string) (cb : Callback)
  | theme_connect (signal_name : string) (cb : Callback).

(** ** Dictionaries in the order of iteration *)

(** A dictionary as the list of its entries, in the order in which
    [for key in d] goes through them: a key that is new goes to the end, a
    key that is set again keeps its place, and a key that is deleted leaves
    the others in their order. *)
Record dict (V : Type) : Type := Dict { dict_items : list (string * V) }.
Arguments Dict {V} _.
Arguments dict_items {V} _.

Fixpoint entries_lookup {V : Type} (key : string) (entries : list (string * V))
  : option V :=
  match entries with
  | [] => None
  | (k, v) :: rest =>
      if decide (k = key) then Some v else entries_lookup key rest
  end.

Fixpoint entries_replace {V : Type} (key : string) (value : V)
    (entries : list (string * V)) : list (string * V) :=
  match entries with
  | [] => []
  | (k, v) :: rest =>
      if decide (k = key) then (k, value) :: rest
      else (k, v) :: entries_replace key value rest
  end.

(** [d[key]], [None] standing for [KeyError]; also [key in d] *)
#[global] Instance dict_lookup {V : Type} : Lookup string V (dict V) :=
  λ key d, entries_lookup key (dict_items d).

(** [{}] *)
#[global] Instance dict_empty {V : Type} : Empty (dict V) := Dict [].

(** [{key: value}] *)
#[global] Instance dict_singleton {V : Type} : SingletonM string V (dict V) :=
  λ key value, Dict [(key, value)].

(** [d[key] = value] *)
#[global] Instance dict_insert {V : Type} : Insert string V (dict V) :=
  λ key value d,
    Dict (match entries_lookup key (dict_items d) with
          | Some _ => entries_replace key value (dict_items d)
          | None => dict_items d ++ [(key, value)]
          end).

(** [del d[key]], for a key that is there *)
#[global] Instance dict_delete {V : Type} : Delete string (dict V) :=
  λ key d, Dict (filter (λ entry, entry.1 ≠ key) (dict_items d)).

(** ** class G15DesktopComponent: attributes

    [start_service_item], [attention_item] and [pages] are never used after
    the constructor and are left out; [lock] is the depth to which the
    re-entrant lock is held. *)

Record G15DesktopComponent : Type := {
  screens : gmap string G15Screen;
  service : option string;
  attention_messages : dict (option string);
  connected : bool;
  lock : nat;
  calls : list Call
}.

Definition set_screens (self : G15DesktopComponent) (v : gmap string G15Screen)
  : G15DesktopComponent :=
  {| screens := v; service := service self;
     attention_messages := attention_messages self;
     connected := connected self; lock := lock self; calls := calls self |}.

Definition set_service (self : G15DesktopComponent) (v : option string)
  : G15DesktopComponent :=
  {| screens := screens self; service := v;
     attention_messages := attention_messages self;
     connected := connected self; lock := lock self; calls := calls self |}.

Definition set_attention_messages (self : G15DesktopComponent)
    (v : dict (option string)) : G15DesktopComponent :=
  {| screens := screens self; service := service self;
     attention_messages := v;
     connected := connected self; lock := lock self; calls := calls self |}.

Definition set_connected (self : G15DesktopComponent) (v : bool)
  : G15DesktopComponent :=
  {| screens := screens self; service := service self;
     attention_messages := attention_messages self;
     connected := v; lock := lock self; calls := calls self |}.

Definition set_lock (self : G15DesktopComponent) (v : nat)
  : G15DesktopComponent :=
  {| screens := screens self; service := service self;
     attention_messages := attention_messages self;
     connected := connected self; lock := v; calls := calls self |}.

Definition set_calls (self : G15DesktopComponent) (v : list Call)
  : G15DesktopComponent :=
  {| screens := screens self; service := service self;
     attention_messages := attention_messages self;
     connected := connected self; lock := lock self; calls := v |}.

(** ** The monad of methods *)

Definition M (A : Type) : Type :=
  G15DesktopComponent → (A + Exn) * G15DesktopComponent.

#[global] Instance M_ret : MRet M := λ A a self, (inl a, self).

#[global] Instance M_bind : MBind M := λ A B k m self,
  match m self with
  | (inl a, self') => k a self'
  | (inr e, self') => (inr e, self')
  end.

Definition raise {A : Type} (e : Exn) : M A := λ self, (inr e, self).

Definition get_self : M G15DesktopComponent := λ self, (inl self, self).

Definition update (f : G15DesktopComponent → G15DesktopComponent) : M unit :=
  λ self, (inl tt, f self).

(** [try: body finally: final] *)
Definition try_finally {A : Type} (body : M A) (final : M unit) : M A :=
  λ self,
    match body self with
    | (r, self') =>
        match final self' with
        | (inl _, self'') => (r, self'')
        | (inr e, self'') => (inr e, self'')
        end
    end.

(** [try: body except dbus.DBusException: handler] *)
Definition try_except_DBusException (body handler : M unit) : M unit :=
  λ self,
    match body self with
    | (inr DBusException, self') => handler self'
    | other => other
    end.

(** [for x in l: body x] *)
Fixpoint for_each {A : Type} (l : list A) (body : A → M unit) : M unit :=
  match l with
  | [] => mret tt
  | x :: l' => body x;; for_each l' body
  end.

(** A call of a method of a remote object. *)
Definition remote {A : Type} (r : Reply A) : M A :=
  match r with
  | Returned a => mret a
  | TransportFault => raise DBusException
  end.

(** A call that is only recorded. *)
Definition invoke (c : Call) : M unit :=
  update (λ self, set_calls self (calls self ++ [c])).

Definition lock_acquire : M unit :=
  update (λ self, set_lock self (S (lock self))).

Definition lock_release : M unit :=
  update (λ self, set_lock self (Nat.pred (lock self))).

(** [d[key]] on the cache of screens *)
Definition screens_getitem (screen_path : string) : M G15Screen :=
  self ← get_self;
  match screens self !! screen_path with
  | Some screen => mret screen
  | None => raise (KeyError screen_path)
  end.

(** [str(n)] and ['%d' % n] of an integer *)
Definition str (n : Z) : string := pretty n.

Definition service_not_running : string :=
  "g15-desktop-service is not running.".

(** [d[key]] on the attention messages *)
Definition attention_getitem (key : string) : M (option string) :=
  self ← get_self;
  match attention_messages self !! key with
  | Some message => mret message
  | None => raise (KeyError key)
  end.

(** [self.screens[screen_path].items[key] = value], on a screen object that
    is in the cache: the object is shared, so the cache sees the new item. *)
Definition items_setitem (screen_path key value : string) : M unit :=
  update (λ self, set_screens self
    (alter (λ screen, set_items screen (<[key:=value]> (items screen)))
           screen_path (screens self))).

(** [del self.screens[screen_path].items[key]] *)
Definition items_delitem (screen_path key : string) : M unit :=
  update (λ self, set_screens self
    (alter (λ screen, set_items screen (delete key (items screen)))
           screen_path (screens self))).

(** The signals of the service that [_connect] subscribes to, with their
    arguments. *)
Inductive Signal : Type :=
  | ScreenAdded (screen_path : string)
  | ScreenRemoved (screen_path : string)
  | PageCreated (screen_path : string) (page_sequence_number : Z)
      (page_title : string)
  | PageTitleChanged (screen_path : string) (page_sequence_number : Z)
      (title : string)
  | PageDeleting (screen_path : string) (page_sequence_number : Z)
  | AttentionRequested (screen_path : string) (message : option string)
  | AttentionCleared (screen_path : string).

(** [__init__]: the attributes of a new component, after
    [initialise_desktop_component] and [icons_changed] have been called. *)
Definition G15DesktopComponent__init__ : G15DesktopComponent :=
  {| screens := ∅;
     service := None;
     attention_messages := ∅;
     connected := false;
     lock := 0;
     calls := [initialise_desktop_component; icons_changed] |}.

Section Component.

(** [g15screen.PRI_LOW], a constant of another module. *)
Context (PRI_LOW : Z).
Context (bus : Bus).

(** [self.session_bus.get_object('org.gnome15.Gnome15', object_path)] *)
Definition get_object (object_path : string) : M string :=
  remote (bus_get_object bus object_path);;
  mret object_path.

Definition check_attention : M unit :=
  self ← get_self;
  if bool_decide (length (dict_items (attention_messages self)) = 0%nat) then
    invoke clear_attention
  else
    match (dict_items (attention_messages self)).*1 with
    | i :: _ =>
        message ← attention_getitem i;
        invoke (attention message)
    | [] => mret tt
    end.

Definition _add_page (screen_path : string) (page : string) : M unit :=
  n ← remote (GetSequenceNumber bus page);
  let seq_no := str n in
  screen ← screens_getitem screen_path;
  match items screen !! seq_no with
  | None =>
      title ← remote (GetTitle bus page);
      items_setitem screen_path seq_no title;;
      invoke rebuild_desktop_component
  | Some _ => mret tt
  end.

Definition _page_created (screen_path : string) (page_sequence_number : Z)
    (page_title : string) : M unit :=
  page ← get_object ("/org/gnome15/Page" +:+ str page_sequence_number);
  lock_acquire;;
  try_finally
    (priority ← remote (GetPriority bus page);
     if bool_decide (PRI_LOW ≤ priority) then _add_page screen_path page
     else mret tt)
    lock_release.

Definition _page_title_changed (screen_path : string)
    (page_sequence_number : Z) (title : string) : M unit :=
  lock_acquire;;
  try_finally
    (screens_getitem screen_path;;
     items_setitem screen_path (str page_sequence_number) title;;
     invoke rebuild_desktop_component)
    lock_release.

Definition _page_deleting (screen_path : string) (page_sequence_number : Z)
  : M unit :=
  lock_acquire;;
  try_finally
    (let page_item_key := str page_sequence_number in
     screen ← screens_getitem screen_path;
     match items screen !! page_item_key with
     | Some _ =>
         items_delitem screen_path page_item_key;;
         invoke rebuild_desktop_component
     | None => mret tt
     end)
    lock_release.

Definition _attention_cleared (screen_path : string) : M unit :=
  self ← get_self;
  match attention_messages self !! screen_path with
  | Some _ =>
      update (λ self, set_attention_messages self
                        (delete screen_path (attention_messages self)));;
      invoke rebuild_desktop_component
  | None => mret tt
  end.

Definition _attention_requested (screen_path : string)
    (message : option string) : M unit :=
  self ← get_self;
  match attention_messages self !! screen_path with
  | None =>
      update (λ self, set_attention_messages self
                        (<[screen_path:=message]> (attention_messages self)));;
      invoke rebuild_desktop_component
  | Some _ => mret tt
  end.

(** [del self.screens[screen_path]] *)
Definition screens_delitem (screen_path : string) : M unit :=
  update (λ self, set_screens self (delete screen_path (screens self))).

(** [_remove_screen], with the statement under [try] left open. *)
Definition _remove_screen_with (deletion : string → M unit)
    (screen_path : string) : M unit :=
  self ← get_self;
  match screens self !! screen_path with
  | Some _ =>
      try_except_DBusException (deletion screen_path) (mret tt)
  | None => mret tt
  end;;
  invoke rebuild_desktop_component.

Definition _remove_screen : string → M unit :=
  _remove_screen_with screens_delitem.

Definition _add_screen (screen_path : string) : M unit :=
  remote_screen ← get_object screen_path;
  info ← remote (GetDeviceInformation bus remote_screen);
  let '(device_uid, device_model_name, device_usb_id, device_model_fullname)
    := info in
  let screen :=
    G15Screen__init__ screen_path device_model_fullname device_uid in
  update (λ self, set_screens self (<[screen_path:=screen]> (screens self)));;
  requested ← remote (IsAttentionRequested bus remote_screen);
  if requested : bool then
    text ← remote (GetMessage bus remote_screen);
    update (λ self, set_screens self
      (alter (λ screen, set_message screen (Some text))
             screen_path (screens self)))
  else mret tt.

Definition _reset_attention : M unit :=
  update (λ self, set_attention_messages self ∅);;
  invoke rebuild_desktop_component.

Definition _connect : M unit :=
  _reset_attention;;
  service_proxy ← get_object "/org/gnome15/Service";
  update (λ self, set_service self (Some service_proxy));;
  update (λ self, set_connected self true);;
  lock_acquire;;
  try_finally
    (screen_paths ← remote (GetScreens bus service_proxy);
     for_each screen_paths (λ screen_path,
       _add_screen screen_path;;
       remote_screen ← get_object screen_path;
       numbers ← remote (GetPageSequenceNumbers bus remote_screen PRI_LOW);
       for_each numbers (λ page_sequence_number,
         page ← get_object ("/org/gnome15/Page" +:+ str page_sequence_number);
         priority ← remote (GetPriority bus page);
         if bool_decide (PRI_LOW ≤ priority) then _add_page screen_path page
         else mret tt)))
    lock_release;;
  invoke (add_signal_receiver cb_add_screen "org.gnome15.Service" "ScreenAdded");;
  invoke (add_signal_receiver cb_remove_screen "org.gnome15.Service" "ScreenRemoved");;
  invoke (add_signal_receiver cb_page_created "org.gnome15.Screen" "PageCreated");;
  invoke (add_signal_receiver cb_page_title_changed "org.gnome15.Screen" "PageTitleChanged");;
  invoke (add_signal_receiver cb_page_deleting "org.gnome15.Screen" "PageDeleting");;
  invoke (add_signal_receiver cb_attention_requested "org.gnome15.Screen" "AttentionRequested");;
  invoke (add_signal_receiver cb_attention_cleared "org.gnome15.Screen" "AttentionCleared");;
  invoke rebuild_desktop_component.

Definition _disconnect : M unit :=
  invoke (remove_signal_receiver cb_page_created "org.gnome15.Service" "ScreenAdded");;
  invoke (remove_signal_receiver cb_page_title_changed "org.gnome15.Service" "ScreenRemoved");;
  invoke (remove_signal_receiver cb_page_created "org.gnome15.Screen" "PageCreated");;
  invoke (remove_signal_receiver cb_page_title_changed "org.gnome15.Screen" "PageTitleChanged");;
  invoke (remove_signal_receiver cb_page_deleting "org.gnome15.Screen" "PageDeleting");;
  invoke (remove_signal_receiver cb_attention_requested "org.gnome15.Screen" "AttentionRequested");;
  invoke (remove_signal_receiver cb_attention_cleared "org.gnome15.Screen" "AttentionCleared");;
  self ← get_self;
  (if bool_decide (service self ≠ None) && connected self then
     for_each (map_to_list (screens self)).*1 _remove_screen
   else mret tt);;
  _reset_attention;;
  _attention_requested "service" (Some service_not_running);;
  update (λ self, set_service self None);;
  update (λ self, set_connected self false);;
  invoke rebuild_desktop_component.

Definition _name_owner_changed (name old_owner new_owner : string) : M unit :=
  if bool_decide (name = "org.gnome15.Gnome15") then
    if bool_decide (old_owner = "") then
      self ← get_self;
      if bool_decide (service self = None) then _connect else mret tt
    else
      self ← get_self;
      if bool_decide (service self ≠ None) then
        update (λ self, set_connected self false);;
        _disconnect
      else mret tt
  else mret tt.

Definition start : M unit :=
  try_except_DBusException _connect
    (invoke print_exc;;
     _disconnect);;
  invoke (notify_add "/apps/gnome15/indicate_only_on_error" cb_indicator_options_changed);;
  invoke (theme_connect "changed" cb_theme_changed);;
  invoke (add_signal_receiver cb_name_owner_changed "org.freedesktop.DBus" "NameOwnerChanged").

(** The delivery of a signal to the receiver that [_connect] has added
    for it. *)
Definition receive (signal : Signal) : M unit :=
  match signal with
  | ScreenAdded screen_path => _add_screen screen_path
  | ScreenRemoved screen_path => _remove_screen screen_path
  | PageCreated screen_path page_sequence_number page_title =>
      _page_created screen_path page_sequence_number page_title
  | PageTitleChanged screen_path page_sequence_number title =>
      _page_title_changed screen_path page_sequence_number title
  | PageDeleting screen_path page_sequence_number =>
      _page_deleting screen_path page_sequence_number
  | AttentionRequested screen_path message =>
      _attention_requested screen_path message
  | AttentionCleared screen_path => _attention_cleared screen_path
  end.

End Component.

(** ** Concrete remote services and components, used to run the methods *)

(** The value of [g15screen.PRI_LOW] in the examples. *)
Definition example_PRI_LOW : Z := 20.

(** One screen "/s1" with one page, number 5, of low priority, "Weather". *)
Definition bus_one_screen : Bus :=
  {| bus_get_object := λ _, Returned tt;
     GetScreens := λ _, Returned ["/s1"];
     GetDeviceInformation := λ _, Returned ("U1", "Model1", "usb1", "Model One");
     IsAttentionRequested := λ _, Returned false;
     GetMessage := λ _, Returned "";
     GetPageSequenceNumbers := λ _ _, Returned [5];
     GetPriority := λ _, Returned 20;
     GetSequenceNumber := λ _, Returned 5;
     GetTitle := λ _, Returned "Weather" |}.

(** The same service while the screen asks for attention. *)
Definition bus_low_battery : Bus :=
  {| bus_get_object := λ _, Returned tt;
     GetScreens := λ _, Returned ["/s1"];
     GetDeviceInformation := λ _, Returned ("U1", "Model1", "usb1", "Model One");
     IsAttentionRequested := λ _, Returned true;
     GetMessage := λ _, Returned "Low battery";
     GetPageSequenceNumbers := λ _ _, Returned [5];
     GetPriority := λ _, Returned 20;
     GetSequenceNumber := λ _, Returned 5;
     GetTitle := λ _, Returned "Weather" |}.

(** A service that is not there: every call fails. *)
Definition bus_down : Bus :=
  {| bus_get_object := λ _, TransportFault;
     GetScreens := λ _, TransportFault;
     GetDeviceInformation := λ _, TransportFault;
     IsAttentionRequested := λ _, TransportFault;
     GetMessage := λ _, TransportFault;
     GetPageSequenceNumbers := λ _ _, TransportFault;
     GetPriority := λ _, TransportFault;
     GetSequenceNumber := λ _, TransportFault;
     GetTitle := λ _, TransportFault |}.

(** A service that goes away while its second screen is being loaded. *)
Definition bus_breaking : Bus :=
  {| bus_get_object := λ _, Returned tt;
     GetScreens := λ _, Returned ["/s1"; "/s2"];
     GetDeviceInformation := λ p,
       if bool_decide (p = "/s1")
       then Returned ("U1", "Model1", "usb1", "Model One")
       else TransportFault;
     IsAttentionRequested := λ _, Returned false;
     GetMessage := λ _, Returned "";
     GetPageSequenceNumbers := λ _ _, Returned [5];
     GetPriority := λ _, Returned 20;
     GetSequenceNumber := λ _, Returned 5;
     GetTitle := λ _, Returned "Weather" |}.

(** The screen "/s1" of [bus_one_screen], with its page. *)
Definition screen_s1 : G15Screen :=
  {| path := "/s1";
     device_model_fullname := "Model One";
     device_uid := "U1";
     items := {[ "5" := "Weather" ]};
     message := None |}.

(** The component after [start] has connected to [bus_one_screen]. *)
Definition connected_component : G15DesktopComponent :=
  {| screens := {[ "/s1" := screen_s1 ]};
     service := Some "/org/gnome15/Service";
     attention_messages := ∅;
     connected := true;
     lock := 0;
     calls :=
       [initialise_desktop_component; icons_changed;
        rebuild_desktop_component; rebuild_desktop_component;
        add_signal_receiver cb_add_screen "org.gnome15.Service" "ScreenAdded";
        add_signal_receiver cb_remove_screen "org.gnome15.Service" "ScreenRemoved";
        add_signal_receiver cb_page_created "org.gnome15.Screen" "PageCreated";
        add_signal_receiver cb_page_title_changed "org.gnome15.Screen" "PageTitleChanged";
        add_signal_receiver cb_page_deleting "org.gnome15.Screen" "PageDeleting";
        add_signal_receiver cb_attention_requested "org.gnome15.Screen" "AttentionRequested";
        add_signal_receiver cb_attention_cleared "org.gnome15.Screen" "AttentionCleared";
        rebuild_desktop_component;
        notify_add "/apps/gnome15/indicate_only_on_error" cb_indicator_options_changed;
        theme_connect "changed" cb_theme_changed;
        add_signal_receiver cb_name_owner_changed "org.freedesktop.DBus" "NameOwnerChanged"] |}.

(** A method that leaves [service] and [connected] as they are. *)
Definition keeps_link {A : Type} (m : M A) : Prop :=
  ∀ self,
    service (m self).2 = service self ∧ connected (m self).2 = connected self.

(** ** Specifications of methods *)

(** [ensures m Q E self]: run on [self], the method [m] either returns a
    value and leaves a component that satisfy [Q], or raises an exception
    and leaves a component that satisfy [E]. *)
Definition ensures {A : Type} (m : M A)
    (Q : A → G15DesktopComponent → Prop)
    (E : Exn → G15DesktopComponent → Prop)
    (self : G15DesktopComponent) : Prop :=
  match m self with
  | (inl a, self') => Q a self'
  | (inr e, self') => E e self'
  end.

(** An item that is what a remote page of priority [PRI_LOW] at least
    reports: its key is the number of the page and its title the title. *)
Definition low_priority_page (PRI_LOW : Z) (bus : Bus)
    (key title : string) : Prop :=
  ∃ (page : string) (number priority : Z),
    GetSequenceNumber bus page = Returned number
    ∧ key = str number
    ∧ GetPriority bus page = Returned priority
    ∧ PRI_LOW ≤ priority
    ∧ GetTitle bus page = Returned title.

(** Every item of every cached screen is such a page. *)
Definition pages_of_low_priority (PRI_LOW : Z) (bus : Bus)
    (self : G15DesktopComponent) : Prop :=
  ∀ screen_path screen key title,
    screens self !! screen_path = Some screen →
    items screen !! key = Some title →
    low_priority_page PRI_LOW bus key title.

(** The attributes other than the cache of screens and the log of calls
    are the same in both components. *)
Definition same_but_screens (self self' : G15DesktopComponent) : Prop :=
  lock self' = lock self
  ∧ attention_messages self' = attention_messages self
  ∧ service self' = service self
  ∧ connected self' = connected self.

(** From [self] to [self'] no screen but the one at [screen_path] was
    touched, that one was not lost, and the items are still pages of low
    priority if they were. *)
Definition touches_only (PRI_LOW : Z) (bus : Bus) (screen_path : string)
    (self self' : G15DesktopComponent) : Prop :=
  same_but_screens self self'
  ∧ (∀ other, other ≠ screen_path →
       screens self' !! other = screens self !! other)
  ∧ (is_Some (screens self !! screen_path) →
       is_Some (screens self' !! screen_path))
  ∧ (pages_of_low_priority PRI_LOW bus self →
       pages_of_low_priority PRI_LOW bus self').

(** From [self] to [self'] no screen outside [screen_paths] was touched, no
    screen was lost, and the items are still pages of low priority if they
    were. *)
Definition loads_only (PRI_LOW : Z) (bus : Bus) (screen_paths : list string)
    (self self' : G15DesktopComponent) : Prop :=
  same_but_screens self self'
  ∧ (∀ other, other ∉ screen_paths →
       screens self' !! other = screens self !! other)
  ∧ (∀ screen_path, is_Some (screens self !! screen_path) →
       is_Some (screens self' !! screen_path))
  ∧ (pages_of_low_priority PRI_LOW bus self →
       pages_of_low_priority PRI_LOW bus self').

(** ** The loops of [_connect], by their bodies *)

Section Loading.

Context (PRI_LOW : Z) (bus : Bus).

(** The body of the loop over the pages of a screen. *)
Definition load_page (screen_path : string) (page_sequence_number : Z)
  : M unit :=
  page ← get_object bus ("/org/gnome15/Page" +:+ str page_sequence_number);
  priority ← remote (GetPriority bus page);
  if bool_decide (PRI_LOW ≤ priority) then _add_page bus screen_path page
  else mret tt.

(** The body of the loop over the screens of the service. *)
Definition load_screen (screen_path : string) : M unit :=
  _add_screen bus screen_path;;
  remote_screen ← get_object bus screen_path;
  numbers ← remote (GetPageSequenceNumbers bus remote_screen PRI_LOW);
  for_each numbers (load_page screen_path).

End Loading.

(** * Properties *)

Ltac unfold_M :=
  unfold mbind, M_bind, mret, M_ret, raise, get_self, update, invoke, remote,
    try_finally, try_except_DBusException, lock_acquire, lock_release,
    screens_getitem, attention_getitem, items_setitem, items_delitem,
    screens_delitem, get_object in *.

(** The first scenario of the specification: [start] on a new component
    loads the screen and its page and leaves no attention message. *)
Example start_connects :
  start example_PRI_LOW bus_one_screen G15DesktopComponent__init__
  = (inl tt, connected_component).
Proof. vm_compute. reflexivity. Qed.

(** ** Finite maps *)

Lemma alter_lookup_insert {V : Type} (f : V → V) (k : string) (v : V)
    (m : gmap string V) :
  m !! k = Some v → alter f k m = <[k:=f v]> m.
Proof.
  intros Hk. apply map_eq. intros j.
  rewrite lookup_alter, lookup_insert.
  case_decide; subst; by try rewrite Hk.
Qed.

(** ** Dictionaries in the order of iteration *)

Lemma dict_lookup_empty {V : Type} (key : string) :
  (∅ : dict V) !! key = None.
Proof. done. Qed.

Lemma entries_lookup_replace {V : Type} (key key' : string) (value : V)
    (entries : list (string * V)) :
  entries_lookup key' (entries_replace key value entries)
  = if decide (key = key')
    then (λ _, value) <$> entries_lookup key entries
    else entries_lookup key' entries.
Proof.
  induction entries as [|[k v] rest IH]; simpl.
  - by case_decide.
  - destruct (decide (k = key)) as [->|Hk]; simpl.
    + by destruct (decide (key = key')).
    + rewrite IH. destruct (decide (k = key')) as [->|Hk'];
        destruct (decide (key = key')); by subst.
Qed.

Lemma entries_lookup_app {V : Type} (key : string)
    (entries entries' : list (string * V)) :
  entries_lookup key (entries ++ entries')
  = match entries_lookup key entries with
    | Some v => Some v
    | None => entries_lookup key entries'
    end.
Proof.
  induction entries as [|[k v] rest IH]; simpl; [done|].
  by destruct (decide (k = key)).
Qed.

Lemma entries_lookup_filter {V : Type} (key key' : string)
    (entries : list (string * V)) :
  entries_lookup key' (filter (λ entry, entry.1 ≠ key) entries)
  = if decide (key = key') then None else entries_lookup key' entries.
Proof.
  induction entries as [|[k v] rest IH]; simpl.
  - by case_decide.
  - rewrite filter_cons. simpl.
    destruct (decide (k ≠ key)) as [Hk|Hk]; simpl.
    + rewrite IH. destruct (decide (k = key')) as [->|Hk'];
        destruct (decide (key = key')); by subst.
    + apply dec_stable in Hk. subst k. rewrite IH.
      destruct (decide (key = key')); done.
Qed.

Lemma dict_lookup_insert_eq {V : Type} (d : dict V) (key : string)
    (value : V) :
  <[key:=value]> d !! key = Some value.
Proof.
  unfold lookup, insert, dict_lookup, dict_insert. simpl.
  destruct (entries_lookup key (dict_items d)) as [old|] eqn:Hold.
  - rewrite entries_lookup_replace, Hold. by rewrite decide_True.
  - rewrite entries_lookup_app, Hold. simpl. by rewrite decide_True.
Qed.

Lemma dict_lookup_insert_ne {V : Type} (d : dict V) (key key' : string)
    (value : V) :
  key ≠ key' → <[key:=value]> d !! key' = d !! key'.
Proof.
  intros Hne. unfold lookup, insert, dict_lookup, dict_insert. simpl.
  destruct (entries_lookup key (dict_items d)) as [old|] eqn:Hold.
  - rewrite entries_lookup_replace. by rewrite decide_False.
  - rewrite entries_lookup_app. simpl. rewrite decide_False by done.
    by destruct (entries_lookup key' (dict_items d)).
Qed.

Lemma dict_lookup_delete_eq {V : Type} (d : dict V) (key : string) :
  delete key d !! key = None.
Proof.
  unfold lookup, delete, dict_lookup, dict_delete. simpl.
  rewrite entries_lookup_filter. by rewrite decide_True.
Qed.

Lemma dict_lookup_delete_ne {V : Type} (d : dict V) (key key' : string) :
  key ≠ key' → delete key d !! key' = d !! key'.
Proof.
  intros Hne. unfold lookup, delete, dict_lookup, dict_delete. simpl.
  rewrite entries_lookup_filter. by rewrite decide_False.
Qed.

Lemma entries_filter_absent {V : Type} (key : string)
    (entries : list (string * V)) :
  entries_lookup key entries = None →
  filter (λ entry, entry.1 ≠ key) entries = entries.
Proof.
  induction entries as [|[k v] rest IH]; simpl; [done|].
  destruct (decide (k = key)) as [->|Hk]; [done|].
  intros Hrest. rewrite filter_cons. simpl.
  rewrite decide_True by done. by rewrite IH.
Qed.

(** A key that was put in new and is deleted again: the dictionary is as
    before, in the same order. *)
Lemma dict_delete_insert_id {V : Type} (d : dict V) (key : string)
    (value : V) :
  d !! key = None → delete key (<[key:=value]> d) = d.
Proof.
  destruct d as [entries]. unfold lookup, insert, delete, dict_lookup,
    dict_insert, dict_delete. simpl. intros Hnone. rewrite Hnone.
  rewrite filter_app, (entries_filter_absent key entries Hnone).
  rewrite filter_cons. simpl. rewrite decide_False by (by intros []).
  by rewrite app_nil_r.
Qed.

Ltac run_M := repeat (progress (unfold_M; simpl)).

(** ** [check_attention] *)

(** What [check_attention] does, by the front of the iteration order. *)
Lemma check_attention_run (self : G15DesktopComponent) :
  check_attention self
  = (inl tt,
     set_calls self
       (calls self ++
          [match dict_items (attention_messages self) with
           | [] => clear_attention
           | (_, message) :: _ => attention message
           end])).
Proof.
  unfold check_attention. run_M.
  destruct (attention_messages self) as [[|[i message] rest]] eqn:Hmessages;
    simpl.
  - done.
  - rewrite Hmessages. unfold lookup, dict_lookup.
    cbn [dict_items entries_lookup]. by rewrite decide_True.
Qed.

(** C5: [check_attention] calls exactly one of the two hooks and returns:
    [clear_attention] exactly when there is no attention message, and
    otherwise [attention] with the message of the first entry in the
    iteration order of the dictionary.  It changes nothing else, so a second
    call on the unchanged dictionary makes the same call again. *)
Theorem check_attention_first_entry_idempotent (self : G15DesktopComponent) :
  ∃ shown : Call,
    (check_attention self).1 = inl tt
    ∧ (check_attention self).2 = set_calls self (calls self ++ [shown])
    ∧ (shown = clear_attention ↔ attention_messages self = ∅)
    ∧ (attention_messages self ≠ ∅ →
         ∃ i message rest,
           dict_items (attention_messages self) = (i, message) :: rest
           ∧ attention_messages self !! i = Some message
           ∧ shown = attention message)
    ∧ (check_attention (check_attention self).2).1 = inl tt
    ∧ calls (check_attention (check_attention self).2).2
        = calls (check_attention self).2 ++ [shown].
Proof.
  rewrite !check_attention_run. simpl.
  destruct (attention_messages self) as [[|[i message] rest]]; simpl.
  - exists clear_attention. repeat split; done.
  - exists (attention message). repeat split; try done.
    intros _. exists i, message, rest. repeat split.
    unfold lookup, dict_lookup. cbn [dict_items entries_lookup].
    by rewrite decide_True.
Qed.

(** ** The attention handlers *)

(** C8: [_attention_requested] adds its message only under a key that is
    not there yet and leaves an existing entry as it is;
    [_attention_cleared] removes the key only when it is there.  Each of
    them calls [rebuild_desktop_component], once and last, exactly when it
    changed the map; otherwise the component is left as it was. *)
Theorem attention_handlers_rebuild_iff_mutated
    (screen_path : string) (message : option string)
    (self : G15DesktopComponent) :
  let requested := _attention_requested screen_path message self in
  let cleared := _attention_cleared screen_path self in
  requested.1 = inl tt
  ∧ cleared.1 = inl tt
  ∧ (attention_messages self !! screen_path = None →
       requested.2
         = set_calls
             (set_attention_messages self
                (<[screen_path:=message]> (attention_messages self)))
             (calls self ++ [rebuild_desktop_component])
       ∧ cleared.2 = self)
  ∧ (is_Some (attention_messages self !! screen_path) →
       requested.2 = self
       ∧ cleared.2
         = set_calls
             (set_attention_messages self
                (delete screen_path (attention_messages self)))
             (calls self ++ [rebuild_desktop_component])).
Proof.
  unfold _attention_requested, _attention_cleared. run_M.
  destruct (attention_messages self !! screen_path) as [old|] eqn:Hin; simpl.
  - repeat split; by try intros [? ?].
  - repeat split; by try intros [? ?].
Qed.

Lemma attention_handlers_witness :
  (_attention_requested "/s1" (Some "Low battery") connected_component).2
  = set_calls
      (set_attention_messages connected_component
         {[ "/s1" := Some "Low battery" ]})
      (calls connected_component ++ [rebuild_desktop_component])
  ∧ (_attention_cleared "/s1" connected_component).2 = connected_component.
Proof.
  exact (proj1 (proj2 (proj2
           (attention_handlers_rebuild_iff_mutated
              "/s1" (Some "Low battery") connected_component)))
           eq_refl).
Defined.

(** ** The page handlers that look the screen up *)

(** C6: for a screen that is in the cache, [_page_title_changed] writes the
    title under the page's key whatever was there, calls
    [rebuild_desktop_component] and gives the lock back.  For a screen that
    is not in the cache it raises [KeyError], which nothing catches, and
    neither writes nor rebuilds. *)
Theorem page_title_changed_overwrites_or_raises
    (screen_path : string) (page_sequence_number : Z) (title : string)
    (self : G15DesktopComponent) :
  let run := _page_title_changed screen_path page_sequence_number title self in
  (∀ screen, screens self !! screen_path = Some screen →
     run.1 = inl tt
     ∧ run.2
       = set_calls
           (set_screens self
              (<[screen_path :=
                   set_items screen
                     (<[str page_sequence_number := title]> (items screen))]>
                 (screens self)))
           (calls self ++ [rebuild_desktop_component]))
  ∧ (screens self !! screen_path = None →
       run.1 = inr (KeyError screen_path) ∧ run.2 = self).
Proof.
  unfold _page_title_changed. run_M. split.
  - intros screen Hscreen. rewrite Hscreen. simpl.
    rewrite (alter_lookup_insert _ _ _ _ Hscreen).
    split; [done|]. by destruct self.
  - intros Hscreen. rewrite Hscreen. simpl.
    split; [done|]. by destruct self.
Qed.

Lemma page_title_changed_witness :
  (_page_title_changed "/s1" 5 "Forecast" connected_component).1 = inl tt
  ∧ (_page_title_changed "/s1" 5 "Forecast" connected_component).2
    = set_calls
        (set_screens connected_component
           {[ "/s1" := set_items screen_s1 {[ "5" := "Forecast" ]} ]})
        (calls connected_component ++ [rebuild_desktop_component])
  ∧ (_page_title_changed "/s7" 5 "Forecast" connected_component).1
    = inr (KeyError "/s7")
  ∧ (_page_title_changed "/s7" 5 "Forecast" connected_component).2
    = connected_component.
Proof.
  destruct (page_title_changed_overwrites_or_raises
              "/s1" 5 "Forecast" connected_component) as [Hin _].
  destruct (page_title_changed_overwrites_or_raises
              "/s7" 5 "Forecast" connected_component) as [_ Hout].
  assert (screens connected_component !! "/s1" = Some screen_s1) as Hs1
    by (vm_compute; reflexivity).
  assert (screens connected_component !! "/s7" = None) as Hs7
    by (vm_compute; reflexivity).
  destruct (Hin screen_s1 Hs1) as [Hr Hs].
  destruct (Hout Hs7) as [He Hu].
  split; [exact Hr|]. split; [|split; [exact He|exact Hu]].
  rewrite Hs. vm_compute. reflexivity.
Defined.

(** C10: for a screen that is not in the cache, [_page_deleting] raises
    [KeyError] at the lookup of the screen, before the test on the page
    key: nothing is removed, [rebuild_desktop_component] is not called and
    the lock is given back.  The test guards the page key only: for a known
    screen the page is removed, with a rebuild, when it is there and the
    call does nothing when it is not. *)
Theorem page_deleting_unknown_screen_raises
    (screen_path : string) (page_sequence_number : Z)
    (self : G15DesktopComponent) :
  let run := _page_deleting screen_path page_sequence_number self in
  (screens self !! screen_path = None →
     run.1 = inr (KeyError screen_path) ∧ run.2 = self)
  ∧ (∀ screen, screens self !! screen_path = Some screen →
       items screen !! str page_sequence_number = None →
       run.1 = inl tt ∧ run.2 = self)
  ∧ (∀ screen, screens self !! screen_path = Some screen →
       is_Some (items screen !! str page_sequence_number) →
       run.1 = inl tt
       ∧ run.2
         = set_calls
             (set_screens self
                (<[screen_path :=
                     set_items screen
                       (delete (str page_sequence_number) (items screen))]>
                   (screens self)))
             (calls self ++ [rebuild_desktop_component])).
Proof.
  unfold _page_deleting. run_M. split; [|split].
  - intros Hscreen. rewrite Hscreen. simpl. split; [done|]. by destruct self.
  - intros screen Hscreen Hpage. rewrite Hscreen. simpl. rewrite Hpage.
    split; [done|]. by destruct self.
  - intros screen Hscreen [title Hpage]. rewrite Hscreen. simpl.
    rewrite Hpage. simpl. rewrite (alter_lookup_insert _ _ _ _ Hscreen).
    split; [done|]. by destruct self.
Qed.

Lemma page_deleting_witness :
  (_page_deleting "/s7" 5 connected_component).1 = inr (KeyError "/s7")
  ∧ (_page_deleting "/s7" 5 connected_component).2 = connected_component
  ∧ (_page_deleting "/s1" 6 connected_component).1 = inl tt
  ∧ (_page_deleting "/s1" 6 connected_component).2 = connected_component.
Proof.
  destruct (page_deleting_unknown_screen_raises "/s7" 5 connected_component)
    as [Hout _].
  destruct (page_deleting_unknown_screen_raises "/s1" 6 connected_component)
    as (_ & Hpage & _).
  assert (screens connected_component !! "/s1" = Some screen_s1) as Hs1
    by (vm_compute; reflexivity).
  assert (screens connected_component !! "/s7" = None) as Hs7
    by (vm_compute; reflexivity).
  assert (items screen_s1 !! str 6 = None) as Hp6
    by (vm_compute; reflexivity).
  destruct (Hout Hs7) as [He Hs].
  destruct (Hpage screen_s1 Hs1 Hp6) as [Hr Hs'].
  repeat split; assumption.
Defined.

(** ** Screens added and removed *)

(** [_remove_screen] as one step on the component. *)
Lemma remove_screen_run (screen_path : string) (self : G15DesktopComponent) :
  _remove_screen screen_path self
  = (inl tt,
     set_calls (set_screens self (delete screen_path (screens self)))
       (calls self ++ [rebuild_desktop_component])).
Proof.
  unfold _remove_screen, _remove_screen_with. run_M.
  destruct (screens self !! screen_path) eqn:Hin; simpl; [done|].
  by rewrite delete_id.
Qed.

(** C7: [_remove_screen] always returns and always ends with one call of
    [rebuild_desktop_component].  The screen is deleted from the cache when
    it is there, and the cache is left as it is when it is not.  A
    [DBusException] raised by the statement under [try] is swallowed: the
    method still returns and still rebuilds. *)
Theorem remove_screen_always_rebuilds
    (screen_path : string) (self : G15DesktopComponent) :
  let run := _remove_screen screen_path self in
  run.1 = inl tt
  ∧ run.2
    = set_calls (set_screens self (delete screen_path (screens self)))
        (calls self ++ [rebuild_desktop_component])
  ∧ screens run.2 !! screen_path = None
  ∧ (screens self !! screen_path = None → screens run.2 = screens self)
  ∧ (∀ deletion : string → M unit,
       is_Some (screens self !! screen_path) →
       (deletion screen_path self).1 = inr DBusException →
       let run' := _remove_screen_with deletion screen_path self in
       run'.1 = inl tt
       ∧ run'.2
         = set_calls (deletion screen_path self).2
             (calls (deletion screen_path self).2
                ++ [rebuild_desktop_component])).
Proof.
  simpl. rewrite remove_screen_run. simpl.
  split; [done|]. split; [done|]. split; [apply lookup_delete_eq|].
  split; [apply delete_id|].
  intros deletion [screen Hin] Hfault.
  unfold _remove_screen_with. run_M. rewrite Hin.
  destruct (deletion screen_path self) as [[[]|[key|]] self']; by simpl in *.
Qed.

Lemma remove_screen_witness :
  (_remove_screen "/s7" connected_component).1 = inl tt
  ∧ screens (_remove_screen "/s7" connected_component).2
    = screens connected_component
  ∧ (_remove_screen_with (λ _, raise DBusException) "/s1"
       connected_component).1 = inl tt
  ∧ (_remove_screen_with (λ _, raise DBusException) "/s1"
       connected_component).2
    = set_calls connected_component
        (calls connected_component ++ [rebuild_desktop_component]).
Proof.
  destruct (remove_screen_always_rebuilds "/s7" connected_component)
    as (Hr & _ & _ & Hout & _).
  destruct (remove_screen_always_rebuilds "/s1" connected_component)
    as (_ & _ & _ & _ & Hfault).
  assert (screens connected_component !! "/s7" = None) as Hs7
    by (vm_compute; reflexivity).
  assert (is_Some (screens connected_component !! "/s1")) as Hs1
    by (exists screen_s1; vm_compute; reflexivity).
  destruct (Hfault (λ _, raise DBusException) Hs1 eq_refl) as [Hr' Hs'].
  split; [exact Hr|]. split; [exact (Hout Hs7)|].
  split; [exact Hr'|exact Hs'].
Defined.

Section AddScreen.

Context (bus : Bus).

(** [_add_screen] touches nothing but the cache of screens, whatever the
    remote side answers. *)
Lemma add_screen_frame (screen_path : string) (self : G15DesktopComponent) :
  let run := _add_screen bus screen_path self in
  attention_messages run.2 = attention_messages self
  ∧ service run.2 = service self
  ∧ connected run.2 = connected self
  ∧ lock run.2 = lock self
  ∧ calls run.2 = calls self.
Proof.
  unfold _add_screen. run_M.
  destruct (bus_get_object bus screen_path) as [[]|]; simpl; [|done].
  destruct (GetDeviceInformation bus screen_path)
    as [[[[uid name] usb] fullname]|]; simpl; [|done].
  destruct (IsAttentionRequested bus screen_path) as [[]|]; simpl;
    [|done|done].
  by destruct (GetMessage bus screen_path).
Qed.

(** [_add_screen] when the remote screen answers every call. *)
Lemma add_screen_run (screen_path : string) (self : G15DesktopComponent)
    (uid name usb fullname text : string) (requested : bool) :
  bus_get_object bus screen_path = Returned tt →
  GetDeviceInformation bus screen_path = Returned (uid, name, usb, fullname) →
  IsAttentionRequested bus screen_path = Returned requested →
  (requested = true → GetMessage bus screen_path = Returned text) →
  _add_screen bus screen_path self
  = (inl tt,
     set_screens self
       (<[screen_path :=
            set_message (G15Screen__init__ screen_path fullname uid)
              (if requested then Some text else None)]> (screens self))).
Proof.
  intros Hobject Hinfo Hrequested Htext.
  unfold _add_screen. run_M. rewrite Hobject. simpl. rewrite Hinfo. simpl.
  rewrite Hrequested. destruct requested; simpl.
  - rewrite (Htext eq_refl). simpl.
    rewrite (alter_lookup_insert _ _ (G15Screen__init__ screen_path fullname uid))
      by apply lookup_insert_eq.
    by rewrite insert_insert_eq.
  - by destruct self.
Qed.

(** C3: [_add_screen] never changes the attention messages.  When the
    remote screen has attention requested, the message it gives is stored
    in the [message] of the new screen, and nowhere else. *)
Theorem add_screen_message_not_in_attention_messages
    (screen_path : string) (self : G15DesktopComponent) :
  let run := _add_screen bus screen_path self in
  attention_messages run.2 = attention_messages self
  ∧ (∀ uid name usb fullname text,
       bus_get_object bus screen_path = Returned tt →
       GetDeviceInformation bus screen_path
         = Returned (uid, name, usb, fullname) →
       IsAttentionRequested bus screen_path = Returned true →
       GetMessage bus screen_path = Returned text →
       run.1 = inl tt
       ∧ run.2
         = set_screens self
             (<[screen_path :=
                  set_message (G15Screen__init__ screen_path fullname uid)
                    (Some text)]> (screens self))).
Proof.
  split.
  - apply add_screen_frame.
  - intros uid name usb fullname text Hobject Hinfo Hrequested Htext.
    by rewrite (add_screen_run screen_path self uid name usb fullname text
                  true Hobject Hinfo Hrequested (λ _, Htext)).
Qed.

(** C9, as the code has it: when [_add_screen] is called for a path that is
    already in the cache and the remote screen gives its device information,
    the cached screen is replaced by a new one with no items, so every page
    cached for that screen is gone, and no other screen is touched.  The
    [message] of the new screen is [None], unless the remote screen has
    attention requested and gives its message; then it is that message. *)
Theorem add_screen_again_discards_items
    (screen_path : string) (self : G15DesktopComponent) (old : G15Screen)
    (uid name usb fullname : string) :
  screens self !! screen_path = Some old →
  bus_get_object bus screen_path = Returned tt →
  GetDeviceInformation bus screen_path = Returned (uid, name, usb, fullname) →
  let run := _add_screen bus screen_path self in
  ∃ screen,
    screens run.2 !! screen_path = Some screen
    ∧ items screen = ∅
    ∧ path screen = screen_path
    ∧ device_model_fullname screen = fullname
    ∧ device_uid screen = uid
    ∧ match IsAttentionRequested bus screen_path, GetMessage bus screen_path with
      | Returned true, Returned text =>
          message screen = Some text ∧ run.1 = inl tt
      | Returned true, TransportFault =>
          message screen = None ∧ run.1 = inr DBusException
      | Returned false, _ =>
          message screen = None ∧ run.1 = inl tt
      | TransportFault, _ =>
          message screen = None ∧ run.1 = inr DBusException
      end
    ∧ (∀ other, other ≠ screen_path →
         screens run.2 !! other = screens self !! other).
Proof.
  intros _ Hobject Hinfo. unfold _add_screen. run_M.
  rewrite Hobject. simpl. rewrite Hinfo. simpl.
  destruct (IsAttentionRequested bus screen_path) as [[]|]; simpl.
  - destruct (GetMessage bus screen_path) as [text|]; simpl.
    + rewrite (alter_lookup_insert _ _
                 (G15Screen__init__ screen_path fullname uid))
        by apply lookup_insert_eq.
      rewrite insert_insert_eq. eexists. split; [apply lookup_insert_eq|].
      repeat split. intros other Hother. by apply lookup_insert_ne.
    + eexists. split; [apply lookup_insert_eq|].
      repeat split. intros other Hother. by apply lookup_insert_ne.
  - eexists. split; [apply lookup_insert_eq|].
    repeat split. intros other Hother. by apply lookup_insert_ne.
  - eexists. split; [apply lookup_insert_eq|].
    destruct (GetMessage bus screen_path);
      repeat split; intros other Hother; by apply lookup_insert_ne.
Qed.

End AddScreen.

Lemma add_screen_message_witness :
  (_add_screen bus_low_battery "/s2" connected_component).1 = inl tt
  ∧ (_add_screen bus_low_battery "/s2" connected_component).2
    = set_screens connected_component
        (<["/s2" :=
             set_message (G15Screen__init__ "/s2" "Model One" "U1")
               (Some "Low battery")]> (screens connected_component)).
Proof.
  exact (proj2 (add_screen_message_not_in_attention_messages
                  bus_low_battery "/s2" connected_component)
           "U1" "Model1" "usb1" "Model One" "Low battery"
           eq_refl eq_refl eq_refl eq_refl).
Defined.

Lemma add_screen_again_witness :
  ∃ screen,
    screens (_add_screen bus_one_screen "/s1" connected_component).2 !! "/s1"
      = Some screen
    ∧ items screen = ∅
    ∧ message screen = None
    ∧ (_add_screen bus_one_screen "/s1" connected_component).1 = inl tt.
Proof.
  assert (screens connected_component !! "/s1" = Some screen_s1) as Hs1
    by (vm_compute; reflexivity).
  destruct (add_screen_again_discards_items bus_one_screen "/s1"
              connected_component screen_s1 "U1" "Model1" "usb1" "Model One"
              Hs1 eq_refl eq_refl)
    as (screen & Hscreen & Hitems & _ & _ & _ & [Hmessage Hr] & _).
  exists screen. repeat split; assumption.
Defined.

(** C9 as it is stated fails when the remote screen has attention
    requested: the screen in the cache after the call carries the remote
    message. *)
Lemma add_screen_again_message_not_None :
  screens connected_component !! "/s1" = Some screen_s1
  ∧ (_add_screen bus_low_battery "/s1" connected_component).1 = inl tt
  ∧ screens (_add_screen bus_low_battery "/s1" connected_component).2 !! "/s1"
    = Some {| path := "/s1";
              device_model_fullname := "Model One";
              device_uid := "U1";
              items := ∅;
              message := Some "Low battery" |}
  ∧ message
      <$> screens (_add_screen bus_low_battery "/s1" connected_component).2
            !! "/s1"
    ≠ Some None.
Proof. vm_compute. repeat split. discriminate. Qed.

(** C2 fails on the code: the handler of [ScreenAdded] puts a new screen
    into the cache and returns without a call of
    [rebuild_desktop_component], or of anything else. *)
Lemma screen_added_without_rebuild :
  screens connected_component !! "/s2" = None
  ∧ (_add_screen bus_one_screen "/s2" connected_component).1 = inl tt
  ∧ screens (_add_screen bus_one_screen "/s2" connected_component).2 !! "/s2"
    = Some (G15Screen__init__ "/s2" "Model One" "U1")
  ∧ calls (_add_screen bus_one_screen "/s2" connected_component).2
    = calls connected_component
  ∧ last (calls connected_component)
    = Some (add_signal_receiver cb_name_owner_changed
              "org.freedesktop.DBus" "NameOwnerChanged").
Proof. vm_compute. repeat split. Qed.

(** ** Pages created *)

Section PageCreated.

Context (PRI_LOW : Z) (bus : Bus).

(** [_add_page] on a screen of the cache, when the page answers with its
    number. *)
Lemma add_page_run (screen_path page : string) (self : G15DesktopComponent)
    (screen : G15Screen) (number : Z) :
  GetSequenceNumber bus page = Returned number →
  screens self !! screen_path = Some screen →
  (is_Some (items screen !! str number) →
     _add_page bus screen_path page self = (inl tt, self))
  ∧ (∀ title,
       items screen !! str number = None →
       GetTitle bus page = Returned title →
       _add_page bus screen_path page self
       = (inl tt,
          set_calls
            (set_screens self
               (<[screen_path :=
                    set_items screen (<[str number := title]> (items screen))]>
                  (screens self)))
            (calls self ++ [rebuild_desktop_component]))).
Proof.
  intros Hnumber Hscreen. unfold _add_page. run_M.
  rewrite Hnumber. simpl. rewrite Hscreen. simpl. split.
  - by intros [title ->].
  - intros title -> ->. simpl.
    by rewrite (alter_lookup_insert _ _ _ _ Hscreen).
Qed.

(** [_page_created], whatever the remote side answers: either the
    component is left as it was, or the page was of priority [PRI_LOW] at
    least and new to its screen, and was put in with a rebuild. *)
Lemma page_created_cases
    (screen_path : string) (page_sequence_number : Z) (page_title : string)
    (self : G15DesktopComponent) :
  let page := "/org/gnome15/Page" +:+ str page_sequence_number in
  let run :=
    _page_created PRI_LOW bus screen_path page_sequence_number page_title self in
  run.2 = self
  ∨ ∃ screen priority number title,
      GetPriority bus page = Returned priority
      ∧ PRI_LOW ≤ priority
      ∧ GetSequenceNumber bus page = Returned number
      ∧ screens self !! screen_path = Some screen
      ∧ items screen !! str number = None
      ∧ GetTitle bus page = Returned title
      ∧ run
        = (inl tt,
           set_calls
             (set_screens self
                (<[screen_path :=
                     set_items screen (<[str number := title]> (items screen))]>
                   (screens self)))
             (calls self ++ [rebuild_desktop_component])).
Proof.
  intros page run. subst run. unfold _page_created, _add_page. run_M.
  fold page.
  destruct (bus_get_object bus page) as [[]|]; simpl; [|by left].
  destruct (GetPriority bus page) as [priority|] eqn:Hpriority; simpl;
    [|left; by destruct self].
  case_bool_decide as Hlow; simpl; [|left; by destruct self].
  destruct (GetSequenceNumber bus page) as [number|] eqn:Hnumber; simpl;
    [|left; by destruct self].
  destruct (screens self !! screen_path) as [screen|] eqn:Hscreen; simpl;
    [|left; by destruct self].
  destruct (items screen !! str number) as [old|] eqn:Hitem; simpl;
    [left; by destruct self|].
  destruct (GetTitle bus page) as [title|] eqn:Htitle; simpl;
    [|left; by destruct self].
  right. exists screen, priority, number, title.
  rewrite (alter_lookup_insert _ _ _ _ Hscreen).
  by repeat split.
Qed.

(** C4, as the code has it: [_page_created], for a page whose proxy can be
    had and gives its priority.  Below [PRI_LOW] nothing more happens.  From
    [PRI_LOW] on and for a screen that is in the cache, the page is put into
    the items of the screen, under its number and with its title, if and
    only if that number is not there yet, and [rebuild_desktop_component]
    is called, once and last, exactly when the page was put in.  From
    [PRI_LOW] on and for a screen that is not in the cache, nothing is put
    in and nothing is rebuilt, and the handler raises [KeyError] for the
    screen once the page has given its number.  The component changes only
    when a page is put in. *)
Theorem page_created_inserts_iff_low_and_new
    (screen_path : string) (page_sequence_number : Z) (page_title : string)
    (self : G15DesktopComponent) (priority : Z) :
  let page := "/org/gnome15/Page" +:+ str page_sequence_number in
  let run :=
    _page_created PRI_LOW bus screen_path page_sequence_number page_title self in
  bus_get_object bus page = Returned tt →
  GetPriority bus page = Returned priority →
  (priority < PRI_LOW → run = (inl tt, self))
  ∧ (∀ screen number,
       screens self !! screen_path = Some screen →
       PRI_LOW ≤ priority →
       GetSequenceNumber bus page = Returned number →
       (is_Some (items screen !! str number) → run = (inl tt, self))
       ∧ (∀ title,
            items screen !! str number = None →
            GetTitle bus page = Returned title →
            run
            = (inl tt,
               set_calls
                 (set_screens self
                    (<[screen_path :=
                         set_items screen
                           (<[str number := title]> (items screen))]>
                       (screens self)))
                 (calls self ++ [rebuild_desktop_component]))))
  ∧ (screens self !! screen_path = None →
     PRI_LOW ≤ priority →
     run.2 = self
     ∧ ∀ number,
         GetSequenceNumber bus page = Returned number →
         run.1 = inr (KeyError screen_path))
  ∧ (run.2 ≠ self →
     ∃ screen number title,
       screens self !! screen_path = Some screen
       ∧ PRI_LOW ≤ priority
       ∧ GetSequenceNumber bus page = Returned number
       ∧ items screen !! str number = None
       ∧ GetTitle bus page = Returned title
       ∧ calls run.2 = calls self ++ [rebuild_desktop_component]).
Proof.
  intros page run Hobject Hpriority. split; [|split; [|split]].
  - subst run. unfold _page_created. run_M. fold page.
    rewrite Hobject. simpl. rewrite Hpriority. simpl.
    intros Hlow. rewrite bool_decide_false by lia. simpl. by destruct self.
  - subst run. unfold _page_created. run_M. fold page.
    rewrite Hobject. simpl. rewrite Hpriority. simpl.
    intros screen number Hscreen Hlow Hnumber.
    rewrite bool_decide_true by done.
    destruct (add_page_run screen_path page
                (set_lock self (S (lock self))) screen number Hnumber Hscreen)
      as [Hold Hnew].
    split.
    + intros Hin. rewrite (Hold Hin). simpl. by destruct self.
    + intros title Hout Htitle. rewrite (Hnew title Hout Htitle). simpl.
      by destruct self.
  - subst run. unfold _page_created, _add_page. run_M. fold page.
    rewrite Hobject. simpl. rewrite Hpriority. simpl.
    intros Hnone Hlow. rewrite bool_decide_true by done.
    destruct (GetSequenceNumber bus page) as [number|]; simpl.
    + rewrite Hnone. simpl. split; [by destruct self|done].
    + split; [by destruct self|done].
  - intros Hchanged.
    destruct (page_created_cases screen_path page_sequence_number
                page_title self)
      as [Hsame|(screen & priority' & number & title & Hpriority' & Hlow
                 & Hnumber & Hscreen & Hout & Htitle & Hrun)];
      [done|].
    fold page in Hpriority', Hnumber, Htitle. fold run in Hrun.
    assert (priority' = priority) as -> by congruence.
    exists screen, number, title. rewrite Hrun. done.
Qed.

End PageCreated.

Lemma page_created_witness :
  (_page_created example_PRI_LOW bus_one_screen "/s1" 5 "Weather"
     (set_screens connected_component
        {[ "/s1" := G15Screen__init__ "/s1" "Model One" "U1" ]})
   = (inl tt,
      set_calls connected_component
        (calls connected_component ++ [rebuild_desktop_component])))
  ∧ (_page_created example_PRI_LOW bus_one_screen "/s1" 5 "Weather"
       connected_component
     = (inl tt, connected_component))
  ∧ (_page_created example_PRI_LOW bus_one_screen "/s7" 5 "Weather"
       connected_component).2 = connected_component.
Proof.
  pose (fresh := G15Screen__init__ "/s1" "Model One" "U1").
  pose (self := set_screens connected_component {[ "/s1" := fresh ]}).
  assert (screens self !! "/s1" = Some fresh) as Hfresh
    by (vm_compute; reflexivity).
  assert (screens connected_component !! "/s1" = Some screen_s1) as Hs1
    by (vm_compute; reflexivity).
  assert (screens connected_component !! "/s7" = None) as Hs7
    by (vm_compute; reflexivity).
  assert (example_PRI_LOW ≤ 20) as Hlow by (unfold example_PRI_LOW; lia).
  assert (items fresh !! str 5 = None) as Hout by (vm_compute; reflexivity).
  assert (is_Some (items screen_s1 !! str 5)) as Hin
    by (exists "Weather"; vm_compute; reflexivity).
  split; [|split].
  - destruct (page_created_inserts_iff_low_and_new
                example_PRI_LOW bus_one_screen "/s1" 5 "Weather"
                self 20 eq_refl eq_refl) as (_ & Hfetch & _).
    destruct (Hfetch fresh 5 Hfresh Hlow eq_refl) as [_ Hnew].
    fold fresh. fold self. rewrite (Hnew "Weather" Hout eq_refl).
    vm_compute. reflexivity.
  - destruct (page_created_inserts_iff_low_and_new
                example_PRI_LOW bus_one_screen "/s1" 5 "Weather"
                connected_component 20 eq_refl eq_refl)
      as (_ & Hfetch & _).
    destruct (Hfetch screen_s1 5 Hs1 Hlow eq_refl) as [Hold _].
    exact (Hold Hin).
  - destruct (page_created_inserts_iff_low_and_new
                example_PRI_LOW bus_one_screen "/s7" 5 "Weather"
                connected_component 20 eq_refl eq_refl)
      as (_ & _ & Hunknown & _).
    exact (proj1 (Hunknown Hs7 Hlow)).
Defined.

(** C4 as it is stated fails for a screen that is not in the cache: the
    priority of the page is [PRI_LOW] and its number is in no items, yet the
    handler raises [KeyError], puts nothing in and does not rebuild. *)
Lemma page_created_uncached_screen_not_inserted :
  screens connected_component !! "/s7" = None
  ∧ GetPriority bus_one_screen "/org/gnome15/Page5" = Returned 20
  ∧ bool_decide (example_PRI_LOW ≤ 20) = true
  ∧ (_page_created example_PRI_LOW bus_one_screen "/s7" 5 "Weather"
       connected_component).1 = inr (KeyError "/s7")
  ∧ screens (_page_created example_PRI_LOW bus_one_screen "/s7" 5 "Weather"
               connected_component).2 !! "/s7" = None
  ∧ (_page_created example_PRI_LOW bus_one_screen "/s7" 5 "Weather"
       connected_component).2 = connected_component.
Proof. vm_compute. repeat split. Qed.


(** ** Every receiver but the one of [ScreenAdded] rebuilds *)

Section Signals.

Context (PRI_LOW : Z) (bus : Bus).

(** Whatever the remote side answers, and whether the receiver returns or
    raises: a signal other than [ScreenAdded] either leaves the component as
    it was or ends with a call of [rebuild_desktop_component]. *)
Lemma receive_rebuilds_after_change
    (signal : Signal) (self : G15DesktopComponent) :
  (∀ screen_path, signal ≠ ScreenAdded screen_path) →
  let run := receive PRI_LOW bus signal self in
  run.2 = self ∨ last (calls run.2) = Some rebuild_desktop_component.
Proof.
  intros Hsignal.
  destruct signal as [screen_path|screen_path|screen_path number title
                     |screen_path number title|screen_path number
                     |screen_path message|screen_path]; simpl.
  - by destruct (Hsignal screen_path).
  - right. rewrite remove_screen_run. simpl. apply last_snoc.
  - destruct (page_created_cases PRI_LOW bus screen_path number title self)
      as [Hsame|(screen & priority & seq_no & fetched & _ & _ & _ & _ & _ & _
                 & Hrun)];
      [by left|].
    right. rewrite Hrun. simpl. apply last_snoc.
  - unfold _page_title_changed. run_M.
    destruct (screens self !! screen_path); simpl.
    + right. apply last_snoc.
    + left. by destruct self.
  - unfold _page_deleting. run_M.
    destruct (screens self !! screen_path) as [screen|]; simpl;
      [|left; by destruct self].
    destruct (items screen !! str number); simpl.
    + right. apply last_snoc.
    + left. by destruct self.
  - unfold _attention_requested. run_M.
    destruct (attention_messages self !! screen_path); simpl.
    + by left.
    + right. apply last_snoc.
  - unfold _attention_cleared. run_M.
    destruct (attention_messages self !! screen_path); simpl.
    + right. apply last_snoc.
    + by left.
Qed.

End Signals.

(** ** Disconnecting *)

(** The loop of [_disconnect] over the keys of a copy of the cache. *)
Lemma remove_screens_run (screen_paths : list string)
    (self : G15DesktopComponent) :
  for_each screen_paths _remove_screen self
  = (inl tt,
     set_calls
       (set_screens self
          (foldl (λ cache screen_path, delete screen_path cache)
                 (screens self) screen_paths))
       (calls self
          ++ replicate (length screen_paths) rebuild_desktop_component)).
Proof.
  revert self. induction screen_paths as [|screen_path rest IH]; intros self.
  - simpl. rewrite app_nil_r. by destruct self.
  - simpl. unfold mbind, M_bind. rewrite remove_screen_run, IH. simpl.
    by rewrite <- app_assoc.
Qed.

(** Deleting every key of a map leaves nothing. *)
Lemma delete_all_keys {V : Type} (keys : list string) (m : gmap string V) :
  (∀ k, is_Some (m !! k) → k ∈ keys) →
  foldl (λ cache k, delete k cache) m keys = ∅.
Proof.
  revert m. induction keys as [|key rest IH]; intros m Hkeys; simpl.
  - apply map_empty. intros k. apply eq_None_not_Some. intros Hk.
    by apply Hkeys, elem_of_nil in Hk.
  - apply IH. intros k Hk. rewrite lookup_delete in Hk.
    case_decide as Hkey; [by destruct Hk|].
    apply Hkeys in Hk. apply elem_of_cons in Hk as [->|Hk]; done.
Qed.

Lemma delete_every_screen (cache : gmap string G15Screen) :
  foldl (λ cache screen_path, delete screen_path cache)
        cache (map_to_list cache).*1 = ∅.
Proof.
  apply delete_all_keys. intros k [screen Hk].
  apply list_elem_of_fmap. exists (k, screen).
  split; [done|]. by apply elem_of_map_to_list.
Qed.

(** [_disconnect], field by field. *)
Lemma disconnect_run (self : G15DesktopComponent) :
  let run := _disconnect self in
  run.1 = inl tt
  ∧ screens run.2
    = (if bool_decide (service self ≠ None) && connected self
       then ∅ else screens self)
  ∧ service run.2 = None
  ∧ attention_messages run.2 = {[ "service" := Some service_not_running ]}
  ∧ connected run.2 = false
  ∧ lock run.2 = lock self
  ∧ last (calls run.2) = Some rebuild_desktop_component.
Proof.
  unfold _disconnect, _reset_attention, _attention_requested.
  unfold mbind, M_bind, invoke, update, get_self. simpl.
  destruct (bool_decide (service self ≠ None) && connected self); simpl.
  - rewrite remove_screens_run. simpl. rewrite delete_every_screen.
    rewrite last_snoc. done.
  - unfold mret, M_ret. simpl. rewrite last_snoc. done.
Qed.


(** ** Methods that leave the link to the service alone *)

Lemma keeps_link_ret {A : Type} (a : A) : keeps_link (mret a : M A).
Proof. by intros self. Qed.

Lemma keeps_link_raise {A : Type} (e : Exn) : keeps_link (raise e : M A).
Proof. by intros self. Qed.

Lemma keeps_link_get_self : keeps_link get_self.
Proof. by intros self. Qed.

Lemma keeps_link_remote {A : Type} (r : Reply A) : keeps_link (remote r).
Proof. by destruct r; intros self. Qed.

Lemma keeps_link_invoke (c : Call) : keeps_link (invoke c).
Proof. by intros self. Qed.

Lemma keeps_link_lock_acquire : keeps_link lock_acquire.
Proof. by intros self. Qed.

Lemma keeps_link_lock_release : keeps_link lock_release.
Proof. by intros self. Qed.

Lemma keeps_link_set_screens
    (f : G15DesktopComponent → gmap string G15Screen) :
  keeps_link (update (λ self, set_screens self (f self))).
Proof. by intros self. Qed.

Lemma keeps_link_bind {A B : Type} (m : M A) (k : A → M B) :
  keeps_link m → (∀ a, keeps_link (k a)) → keeps_link (m ≫= k).
Proof.
  intros Hm Hk self. unfold mbind, M_bind.
  destruct (Hm self) as [Hservice Hconnected].
  destruct (m self) as [[a|e] self']; simpl in *; [|done].
  destruct (Hk a self') as [Hservice' Hconnected'].
  split; congruence.
Qed.

Lemma keeps_link_try_finally {A : Type} (body : M A) (final : M unit) :
  keeps_link body → keeps_link final → keeps_link (try_finally body final).
Proof.
  intros Hbody Hfinal self. unfold try_finally.
  destruct (Hbody self) as [Hservice Hconnected].
  destruct (body self) as [r self']; simpl in *.
  destruct (Hfinal self') as [Hservice' Hconnected'].
  destruct (final self') as [[[]|e] self'']; simpl in *; split; congruence.
Qed.

Lemma keeps_link_for_each {A : Type} (l : list A) (body : A → M unit) :
  (∀ x, keeps_link (body x)) → keeps_link (for_each l body).
Proof.
  intros Hbody. induction l as [|x l IH]; simpl.
  - apply keeps_link_ret.
  - apply keeps_link_bind; [apply Hbody|by intros _].
Qed.

Create HintDb keeps_link.

#[local] Hint Resolve keeps_link_ret keeps_link_raise keeps_link_get_self
  keeps_link_remote keeps_link_invoke keeps_link_lock_acquire
  keeps_link_lock_release keeps_link_set_screens keeps_link_try_finally
  keeps_link_for_each : keeps_link.

Ltac keeps_link_step :=
  first
    [ apply keeps_link_bind; [|intros ?]
    | apply keeps_link_for_each; intros ?
    | apply keeps_link_try_finally
    | progress auto with keeps_link
    | case_match ].

Section Connect.

Context (PRI_LOW : Z) (bus : Bus).

Lemma keeps_link_get_object (object_path : string) :
  keeps_link (get_object bus object_path).
Proof. unfold get_object. repeat keeps_link_step. Qed.

Lemma keeps_link_add_screen (screen_path : string) :
  keeps_link (_add_screen bus screen_path).
Proof.
  intros self. destruct (add_screen_frame bus screen_path self)
    as (_ & Hservice & Hconnected & _). done.
Qed.

Lemma keeps_link_add_page (screen_path page : string) :
  keeps_link (_add_page bus screen_path page).
Proof.
  unfold _add_page, screens_getitem, items_setitem.
  repeat keeps_link_step.
Qed.

(** What [_connect] leaves behind: either the service proxy could not be
    had, and only the attention messages were reset, or the component holds
    a service and is marked connected, however far the loading got. *)
Lemma connect_link (self : G15DesktopComponent) :
  let run := _connect PRI_LOW bus self in
  (run.1 = inr DBusException
   ∧ screens run.2 = screens self
   ∧ service run.2 = service self
   ∧ connected run.2 = connected self)
  ∨ (service run.2 = Some "/org/gnome15/Service"
     ∧ connected run.2 = true).
Proof.
  unfold _connect.
  match goal with
  | |- context [get_object bus _ ≫= ?k] => set (loading := k)
  end.
  assert (∀ service_proxy self',
            service (loading service_proxy self').2 = Some service_proxy
            ∧ connected (loading service_proxy self').2 = true) as Hloading.
  { intros service_proxy self'. subst loading. cbv beta.
    match goal with
    | |- context [lock_acquire ≫= ?k] => set (rest := lock_acquire ≫= k)
    end.
    assert (keeps_link rest) as Hrest
      by (subst rest; repeat keeps_link_step).
    unfold mbind, M_bind, update. simpl.
    apply Hrest. }
  unfold _reset_attention, get_object, mbind, M_bind, update, invoke, remote.
  simpl.
  destruct (bus_get_object bus "/org/gnome15/Service") as [[]|]; simpl.
  - right. apply Hloading.
  - left. done.
Qed.

End Connect.


Section Disconnect.

Context (PRI_LOW : Z) (bus : Bus).

(** [start] when [_connect] fails with a [DBusException], on a component
    whose cache is still empty. *)
Lemma start_connect_failure (self : G15DesktopComponent) :
  screens self = ∅ →
  (_connect PRI_LOW bus self).1 = inr DBusException →
  let run := start PRI_LOW bus self in
  run.1 = inl tt
  ∧ screens run.2 = ∅
  ∧ attention_messages run.2 = {[ "service" := Some service_not_running ]}
  ∧ service run.2 = None
  ∧ connected run.2 = false.
Proof.
  intros Hcache Hfailure.
  pose proof (connect_link PRI_LOW bus self) as Hlink.
  unfold start, try_except_DBusException, mbind, M_bind, invoke, update.
  simpl.
  destruct (_connect PRI_LOW bus self) as [result self'].
  simpl in Hfailure, Hlink. subst result.
  destruct (disconnect_run (set_calls self' (calls self' ++ [print_exc])))
    as (Hreturns & Hscreens & Hservice & Hmessages & Hconnected & _).
  destruct (_disconnect (set_calls self' (calls self' ++ [print_exc])))
    as [result self'']. simpl in *. subst result. simpl.
  split; [done|]. split; [|done].
  rewrite Hscreens.
  destruct Hlink as [(_ & Hsame & _)|[-> ->]]; simpl.
  - rewrite Hsame, Hcache. by case_match.
  - done.
Qed.

(** C1, as the code has it: [_disconnect] always returns and leaves exactly
    one attention message, under the key "service", with the fixed text, no
    service and [connected] false.  It empties the cache of screens when it
    is entered with a service and with [connected] true, and does not touch
    the cache otherwise.  So the cache is empty after a failed connection at
    start up; when the owner of the bus name is lost, the handler clears
    [connected] before it disconnects, and what is promised then is the
    attention message, the missing service and [connected] false. *)
Theorem disconnect_leaves_service_message
    (self : G15DesktopComponent) (old_owner new_owner : string) :
  (let run := _disconnect self in
   run.1 = inl tt
   ∧ attention_messages run.2 = {[ "service" := Some service_not_running ]}
   ∧ service run.2 = None
   ∧ connected run.2 = false
   ∧ screens run.2
     = (if bool_decide (service self ≠ None) && connected self
        then ∅ else screens self))
  ∧ (screens self = ∅ →
     (_connect PRI_LOW bus self).1 = inr DBusException →
     let run := start PRI_LOW bus self in
     run.1 = inl tt
     ∧ attention_messages run.2 = {[ "service" := Some service_not_running ]}
     ∧ service run.2 = None
     ∧ connected run.2 = false
     ∧ screens run.2 = ∅)
  ∧ (old_owner ≠ "" →
     service self ≠ None →
     let run :=
       _name_owner_changed PRI_LOW bus
         "org.gnome15.Gnome15" old_owner new_owner self in
     run.1 = inl tt
     ∧ attention_messages run.2 = {[ "service" := Some service_not_running ]}
     ∧ service run.2 = None
     ∧ connected run.2 = false).
Proof.
  split; [|split].
  - destruct (disconnect_run self) as (? & ? & ? & ? & ? & _). done.
  - intros Hcache Hfailure.
    destruct (start_connect_failure self Hcache Hfailure)
      as (? & ? & ? & ? & ?). done.
  - intros Howner Hservice. unfold _name_owner_changed.
    rewrite bool_decide_true by done. rewrite bool_decide_false by done.
    unfold mbind, M_bind, get_self, update. simpl.
    rewrite bool_decide_true by done.
    destruct (disconnect_run (set_connected self false))
      as (? & ? & ? & ? & ? & _). done.
Qed.

End Disconnect.

Lemma disconnect_witness :
  (let run := _disconnect connected_component in
   run.1 = inl tt
   ∧ attention_messages run.2 = {[ "service" := Some service_not_running ]}
   ∧ screens run.2 = ∅)
  ∧ (let run :=
       start example_PRI_LOW bus_breaking G15DesktopComponent__init__ in
     run.1 = inl tt
     ∧ attention_messages run.2 = {[ "service" := Some service_not_running ]}
     ∧ screens run.2 = ∅).
Proof.
  destruct (disconnect_leaves_service_message example_PRI_LOW bus_breaking
              connected_component ":1.42" "")
    as ((Hr & Hm & _ & _ & Hs) & _ & _).
  destruct (disconnect_leaves_service_message example_PRI_LOW bus_breaking
              G15DesktopComponent__init__ ":1.42" "")
    as (_ & Hstart & _).
  assert ((_connect example_PRI_LOW bus_breaking
             G15DesktopComponent__init__).1 = inr DBusException) as Hfailure
    by (vm_compute; reflexivity).
  destruct (Hstart eq_refl Hfailure) as (Hr' & Hm' & _ & _ & Hs').
  split; repeat split; assumption.
Defined.

(** C1 as it is stated fails when the owner of the bus name is lost while
    the component is connected: the cached screen is still there after the
    disconnect. *)
Lemma owner_lost_keeps_screens :
  service connected_component = Some "/org/gnome15/Service"
  ∧ connected connected_component = true
  ∧ (_name_owner_changed example_PRI_LOW bus_down
       "org.gnome15.Gnome15" ":1.42" "" connected_component).1 = inl tt
  ∧ screens
      (_name_owner_changed example_PRI_LOW bus_down
         "org.gnome15.Gnome15" ":1.42" "" connected_component).2
    = {[ "/s1" := screen_s1 ]}
  ∧ screens
      (_name_owner_changed example_PRI_LOW bus_down
         "org.gnome15.Gnome15" ":1.42" "" connected_component).2 !! "/s1"
    = Some screen_s1
  ∧ attention_messages
      (_name_owner_changed example_PRI_LOW bus_down
         "org.gnome15.Gnome15" ":1.42" "" connected_component).2
    = {[ "service" := Some service_not_running ]}.
Proof. vm_compute. repeat split. Qed.

(** ** The scenarios of the specification *)

(** A screen asks for attention and takes it back. *)
Example attention_scenario :
  let requested :=
    (receive example_PRI_LOW bus_one_screen
       (AttentionRequested "/s1" (Some "Low battery")) connected_component).2 in
  let cleared :=
    (receive example_PRI_LOW bus_one_screen
       (AttentionCleared "/s1") requested).2 in
  attention_messages requested = {[ "/s1" := Some "Low battery" ]}
  ∧ last (calls (check_attention requested).2)
    = Some (attention (Some "Low battery"))
  ∧ attention_messages cleared = ∅
  ∧ last (calls (check_attention cleared).2) = Some clear_attention.
Proof. vm_compute. repeat split. Qed.

(** Two screens ask for attention: the message that is shown is the one
    that was asked for first, whatever the paths of the screens, and it is
    shown until its screen clears it. *)
Example attention_first_requested_is_shown :
  let s2_then_s1 :=
    (_attention_requested "/s1" (Some "A")
       (_attention_requested "/s2" (Some "B") connected_component).2).2 in
  let s1_then_s2 :=
    (_attention_requested "/s2" (Some "B")
       (_attention_requested "/s1" (Some "A") connected_component).2).2 in
  dict_items (attention_messages s2_then_s1)
  = [("/s2", Some "B"); ("/s1", Some "A")]
  ∧ last (calls (check_attention s2_then_s1).2) = Some (attention (Some "B"))
  ∧ last (calls (check_attention s1_then_s2).2) = Some (attention (Some "A"))
  ∧ last (calls (check_attention (_attention_cleared "/s2" s2_then_s1).2).2)
    = Some (attention (Some "A")).
Proof. vm_compute. repeat split. Qed.

(** The service does not answer at start up. *)
Example start_without_service :
  let run := start example_PRI_LOW bus_down G15DesktopComponent__init__ in
  run.1 = inl tt
  ∧ screens run.2 = ∅
  ∧ attention_messages run.2 = {[ "service" := Some service_not_running ]}
  ∧ service run.2 = None
  ∧ connected run.2 = false
  ∧ last (calls (check_attention run.2).2)
    = Some (attention (Some service_not_running)).
Proof. vm_compute. repeat split. Qed.

(** * Beyond the handlers one by one *)

(** ** Rules for [ensures] *)

Lemma ensures_ret {A : Type} (a : A) Q E (self : G15DesktopComponent) :
  ensures (mret a) Q E self ↔ Q a self.
Proof. done. Qed.

Lemma ensures_raise {A : Type} (e : Exn) (Q : A → _) E
    (self : G15DesktopComponent) :
  ensures (raise e) Q E self ↔ E e self.
Proof. done. Qed.

Lemma ensures_bind {A B : Type} (m : M A) (k : A → M B) Q E
    (self : G15DesktopComponent) :
  ensures (m ≫= k) Q E self
  ↔ ensures m (λ a self', ensures (k a) Q E self') E self.
Proof.
  unfold ensures, mbind, M_bind. by destruct (m self) as [[a|e] self'].
Qed.

Lemma ensures_remote {A : Type} (r : Reply A) Q E
    (self : G15DesktopComponent) :
  ensures (remote r) Q E self
  ↔ match r with
    | Returned a => Q a self
    | TransportFault => E DBusException self
    end.
Proof. by destruct r. Qed.

Lemma ensures_update (f : G15DesktopComponent → G15DesktopComponent) Q E
    (self : G15DesktopComponent) :
  ensures (update f) Q E self ↔ Q tt (f self).
Proof. done. Qed.

Lemma ensures_get_self Q E (self : G15DesktopComponent) :
  ensures get_self Q E self ↔ Q self self.
Proof. done. Qed.

(** [try: body finally: self.lock.release()] *)
Lemma ensures_finally_release {A : Type} (body : M A) Q E
    (self : G15DesktopComponent) :
  ensures (try_finally body lock_release) Q E self
  ↔ ensures body
      (λ a self', Q a (set_lock self' (Nat.pred (lock self'))))
      (λ e self', E e (set_lock self' (Nat.pred (lock self'))))
      self.
Proof.
  unfold ensures, try_finally, lock_release, update.
  by destruct (body self) as [[a|e] self'].
Qed.

Lemma ensures_mono {A : Type} (m : M A)
    (Q Q' : A → G15DesktopComponent → Prop)
    (E E' : Exn → G15DesktopComponent → Prop) (self : G15DesktopComponent) :
  (∀ a self', Q a self' → Q' a self') →
  (∀ e self', E e self' → E' e self') →
  ensures m Q E self → ensures m Q' E' self.
Proof.
  unfold ensures. intros HQ HE. destruct (m self) as [[a|e] self']; auto.
Qed.

(** A loop keeps what each of its rounds keeps. *)
Lemma ensures_for_each {A : Type} (l : list A) (body : A → M unit)
    (I : G15DesktopComponent → Prop) E :
  (∀ x self, x ∈ l → I self → ensures (body x) (λ _, I) E self) →
  ∀ self, I self → ensures (for_each l body) (λ _, I) E self.
Proof.
  induction l as [|x l IH]; intros Hbody self HI; simpl.
  - done.
  - apply ensures_bind.
    eapply ensures_mono; [| |apply Hbody; [left|done]]; [|done].
    intros [] self' HI'. apply IH; [|done].
    intros y self'' Hy. apply Hbody. by right.
Qed.

Ltac ensures_step :=
  first
    [ rewrite ensures_bind
    | rewrite ensures_ret
    | rewrite ensures_raise
    | rewrite ensures_remote
    | rewrite ensures_update
    | rewrite ensures_get_self
    | rewrite ensures_finally_release ].

(** ** The loops of [_connect] *)

Section LoadingLoops.

Context (PRI_LOW : Z) (bus : Bus).

(** [_connect], with its loops written by their bodies. *)
Lemma connect_unfold :
  _connect PRI_LOW bus
  = (_reset_attention;;
     service_proxy ← get_object bus "/org/gnome15/Service";
     update (λ self, set_service self (Some service_proxy));;
     update (λ self, set_connected self true);;
     lock_acquire;;
     try_finally
       (screen_paths ← remote (GetScreens bus service_proxy);
        for_each screen_paths (load_screen PRI_LOW bus))
       lock_release;;
     invoke (add_signal_receiver cb_add_screen "org.gnome15.Service" "ScreenAdded");;
     invoke (add_signal_receiver cb_remove_screen "org.gnome15.Service" "ScreenRemoved");;
     invoke (add_signal_receiver cb_page_created "org.gnome15.Screen" "PageCreated");;
     invoke (add_signal_receiver cb_page_title_changed "org.gnome15.Screen" "PageTitleChanged");;
     invoke (add_signal_receiver cb_page_deleting "org.gnome15.Screen" "PageDeleting");;
     invoke (add_signal_receiver cb_attention_requested "org.gnome15.Screen" "AttentionRequested");;
     invoke (add_signal_receiver cb_attention_cleared "org.gnome15.Screen" "AttentionCleared");;
     invoke rebuild_desktop_component).
Proof. reflexivity. Qed.

(** [_page_created] is a round of the page loop under the lock, but for the
    proxy, which it gets before it takes the lock. *)
Lemma page_created_unfold (screen_path : string) (page_sequence_number : Z)
    (page_title : string) :
  _page_created PRI_LOW bus screen_path page_sequence_number page_title
  = (page ← get_object bus ("/org/gnome15/Page" +:+ str page_sequence_number);
     lock_acquire;;
     try_finally
       (priority ← remote (GetPriority bus page);
        if bool_decide (PRI_LOW ≤ priority)
        then _add_page bus screen_path page
        else mret tt)
       lock_release).
Proof. reflexivity. Qed.

Lemma touches_only_refl (screen_path : string) (self : G15DesktopComponent) :
  touches_only PRI_LOW bus screen_path self self.
Proof. by repeat split. Qed.

Lemma touches_only_trans (screen_path : string)
    (self self' self'' : G15DesktopComponent) :
  touches_only PRI_LOW bus screen_path self self' →
  touches_only PRI_LOW bus screen_path self' self'' →
  touches_only PRI_LOW bus screen_path self self''.
Proof.
  intros ((? & ? & ? & ?) & Hother & Hkept & Hlow)
         ((? & ? & ? & ?) & Hother' & Hkept' & Hlow').
  repeat split; try congruence; auto.
  intros other Hne. rewrite Hother', Hother; done.
Qed.

(** The log of calls does not count. *)
Lemma touches_only_calls (screen_path : string)
    (self self' : G15DesktopComponent) (log : list Call) :
  touches_only PRI_LOW bus screen_path self self' →
  touches_only PRI_LOW bus screen_path self (set_calls self' log).
Proof. by intros ((? & ? & ? & ?) & ? & ? & ?). Qed.

(** Putting a page of low priority into a cached screen. *)
Lemma touches_only_add_item (screen_path : string)
    (self : G15DesktopComponent) (screen : G15Screen) (key title : string) :
  screens self !! screen_path = Some screen →
  low_priority_page PRI_LOW bus key title →
  touches_only PRI_LOW bus screen_path self
    (set_screens self
       (<[screen_path := set_items screen (<[key := title]> (items screen))]>
          (screens self))).
Proof.
  intros Hscreen Hpage. split; [done|]. split; [|split]; simpl.
  - intros other Hne. by apply lookup_insert_ne.
  - intros _. rewrite lookup_insert_eq. by eexists.
  - intros Hlow p screen' key' title'. simpl. rewrite lookup_insert.
    case_decide as Hp.
    + intros [= <-]. simpl. rewrite lookup_insert.
      case_decide as Hkey.
      * intros [= <-]. by subst key'.
      * by apply (Hlow screen_path).
    + by apply Hlow.
Qed.

(** Putting a new screen, without items, into the cache. *)
Lemma touches_only_new_screen (screen_path : string)
    (self : G15DesktopComponent) (screen : G15Screen) :
  items screen = ∅ →
  touches_only PRI_LOW bus screen_path self
    (set_screens self (<[screen_path := screen]> (screens self))).
Proof.
  intros Hitems. split; [done|]. split; [|split]; simpl.
  - intros other Hne. by apply lookup_insert_ne.
  - intros _. rewrite lookup_insert_eq. by eexists.
  - intros Hlow p screen' key title. simpl. rewrite lookup_insert.
    case_decide as Hp.
    + intros [= <-]. by rewrite Hitems, lookup_empty.
    + by apply Hlow.
Qed.

(** [_add_screen]: only the screen at [screen_path] is touched, nothing is
    logged, and the screen is cached when the method returns. *)
Lemma add_screen_ensures (screen_path : string) (self : G15DesktopComponent) :
  ensures (_add_screen bus screen_path)
    (λ _ self',
       touches_only PRI_LOW bus screen_path self self'
       ∧ is_Some (screens self' !! screen_path)
       ∧ calls self' = calls self)
    (λ e self',
       e = DBusException
       ∧ touches_only PRI_LOW bus screen_path self self'
       ∧ calls self' = calls self)
    self.
Proof.
  unfold ensures, _add_screen. run_M.
  destruct (bus_get_object bus screen_path) as [[]|]; simpl;
    [|by auto using touches_only_refl].
  destruct (GetDeviceInformation bus screen_path)
    as [[[[uid name] usb] fullname]|]; simpl;
    [|by auto using touches_only_refl].
  pose proof (touches_only_new_screen screen_path self
                (G15Screen__init__ screen_path fullname uid) eq_refl)
    as Hnew.
  destruct (IsAttentionRequested bus screen_path) as [[]|]; simpl.
  - destruct (GetMessage bus screen_path) as [text|]; simpl.
    + rewrite (alter_lookup_insert _ _
                 (G15Screen__init__ screen_path fullname uid))
        by apply lookup_insert_eq.
      rewrite insert_insert_eq. split; [|split; [|done]].
      * exact (touches_only_new_screen screen_path self
                 (set_message (G15Screen__init__ screen_path fullname uid)
                    (Some text)) eq_refl).
      * rewrite lookup_insert_eq. by eexists.
    + by auto.
  - split; [done|]. split; [|done]. rewrite lookup_insert_eq. by eexists.
  - by auto.
Qed.

(** [_add_page]: either nothing happens, or the page is put into the cached
    screen and a rebuild is logged.  [KeyError] is for a screen that is not
    cached. *)
Lemma add_page_ensures (screen_path page : string)
    (self : G15DesktopComponent) :
  ensures (_add_page bus screen_path page)
    (λ _ self',
       self' = self
       ∨ ∃ screen number title,
           screens self !! screen_path = Some screen
           ∧ GetSequenceNumber bus page = Returned number
           ∧ items screen !! str number = None
           ∧ GetTitle bus page = Returned title
           ∧ self'
             = set_calls
                 (set_screens self
                    (<[screen_path :=
                         set_items screen
                           (<[str number := title]> (items screen))]>
                       (screens self)))
                 (calls self ++ [rebuild_desktop_component]))
    (λ e self',
       self' = self
       ∧ (e = DBusException
          ∨ (e = KeyError screen_path ∧ screens self !! screen_path = None)))
    self.
Proof.
  unfold ensures, _add_page. run_M.
  destruct (GetSequenceNumber bus page) as [number|] eqn:Hnumber; simpl;
    [|by auto].
  destruct (screens self !! screen_path) as [screen|] eqn:Hscreen; simpl;
    [|by auto].
  destruct (items screen !! str number) as [old|] eqn:Hitem; simpl;
    [by auto|].
  destruct (GetTitle bus page) as [title|] eqn:Htitle; simpl; [|by auto].
  right. exists screen, number, title.
  by rewrite (alter_lookup_insert _ _ _ _ Hscreen).
Qed.

(** A round of the page loop. *)
Lemma load_page_ensures (screen_path : string) (page_sequence_number : Z)
    (self : G15DesktopComponent) :
  ensures (load_page PRI_LOW bus screen_path page_sequence_number)
    (λ _ self', touches_only PRI_LOW bus screen_path self self')
    (λ e self',
       self' = self
       ∧ (e = DBusException
          ∨ (e = KeyError screen_path ∧ screens self !! screen_path = None)))
    self.
Proof.
  unfold load_page, get_object. repeat ensures_step.
  destruct (bus_get_object bus _) as [[]|]; [|by auto].
  repeat ensures_step.
  destruct (GetPriority bus _) as [priority|] eqn:Hpriority; [|by auto].
  case_bool_decide as Hlow; [|apply touches_only_refl].
  eapply ensures_mono; [| |apply add_page_ensures]; [|done].
  intros [] self' [->|(screen & number & title & Hscreen & Hnumber & Hitem
                      & Htitle & ->)].
  - apply touches_only_refl.
  - apply touches_only_calls, touches_only_add_item; [done|].
    by eexists _, number, priority.
Qed.

(** The page loop, for a screen that is cached. *)
Lemma load_pages_ensures (screen_path : string) (numbers : list Z)
    (self : G15DesktopComponent) :
  is_Some (screens self !! screen_path) →
  ensures (for_each numbers (load_page PRI_LOW bus screen_path))
    (λ _ self', touches_only PRI_LOW bus screen_path self self')
    (λ e self',
       e = DBusException ∧ touches_only PRI_LOW bus screen_path self self')
    self.
Proof.
  intros Hcached.
  apply (ensures_for_each numbers (load_page PRI_LOW bus screen_path)
           (λ self', touches_only PRI_LOW bus screen_path self self'));
    [|apply touches_only_refl].
  intros number self' _ Hsofar.
  eapply ensures_mono; [| |apply load_page_ensures].
  - intros [] self'' Hround. by eapply touches_only_trans.
  - intros e self'' [Hsame Hcause]. subst self''.
    destruct Hcause as [->|[_ Hgone]]; [done|].
    destruct Hsofar as (_ & _ & Hkept & _).
    destruct (Hkept Hcached) as [screen Hscreen]. congruence.
Qed.

(** A round of the screen loop. *)
Lemma load_screen_ensures (screen_path : string)
    (self : G15DesktopComponent) :
  ensures (load_screen PRI_LOW bus screen_path)
    (λ _ self',
       touches_only PRI_LOW bus screen_path self self'
       ∧ is_Some (screens self' !! screen_path))
    (λ e self',
       e = DBusException ∧ touches_only PRI_LOW bus screen_path self self')
    self.
Proof.
  unfold load_screen, get_object. ensures_step.
  eapply ensures_mono; [| |apply add_screen_ensures].
  - intros [] self' (Hadded & Hcached & _). repeat ensures_step.
    destruct (bus_get_object bus screen_path) as [[]|]; [|done].
    repeat ensures_step.
    destruct (GetPageSequenceNumbers bus screen_path PRI_LOW)
      as [numbers|]; [|done].
    eapply ensures_mono; [| |by apply load_pages_ensures].
    + intros [] self'' Hpages. split; [by eapply touches_only_trans|].
      destruct Hpages as (_ & _ & Hkept & _). auto.
    + intros e self'' [-> Hpages]. split; [done|].
      by eapply touches_only_trans.
  - intros e self' (-> & Hadded & _). done.
Qed.

Lemma loads_only_refl (screen_paths : list string)
    (self : G15DesktopComponent) :
  loads_only PRI_LOW bus screen_paths self self.
Proof. by split; [|split; [|split]]. Qed.

(** A round for the first path, then the loop for the others. *)
Lemma loads_only_cons (screen_path : string) (screen_paths : list string)
    (self self' self'' : G15DesktopComponent) :
  touches_only PRI_LOW bus screen_path self self' →
  loads_only PRI_LOW bus screen_paths self' self'' →
  loads_only PRI_LOW bus (screen_path :: screen_paths) self self''.
Proof.
  intros ((? & ? & ? & ?) & Hother & Hkept & Hlow)
         ((? & ? & ? & ?) & Hother' & Hkept' & Hlow').
  split; [|split; [|split]].
  - unfold same_but_screens. repeat split; congruence.
  - intros other Hout. apply not_elem_of_cons in Hout as [Hne Hout].
    rewrite Hother', Hother; done.
  - intros q Hq. apply Hkept'.
    destruct (decide (q = screen_path)) as [->|Hne]; [auto|].
    by rewrite Hother.
  - auto.
Qed.

(** The screen loop. *)
Lemma load_screens_ensures (screen_paths : list string)
    (self : G15DesktopComponent) :
  ensures (for_each screen_paths (load_screen PRI_LOW bus))
    (λ _ self',
       loads_only PRI_LOW bus screen_paths self self'
       ∧ ∀ screen_path, screen_path ∈ screen_paths →
           is_Some (screens self' !! screen_path))
    (λ e self',
       e = DBusException ∧ loads_only PRI_LOW bus screen_paths self self')
    self.
Proof.
  revert self. induction screen_paths as [|screen_path rest IH]; intros self.
  - simpl. rewrite ensures_ret. split; [apply loads_only_refl|].
    intros q Hq. by apply elem_of_nil in Hq.
  - simpl. ensures_step.
    eapply ensures_mono; [| |apply load_screen_ensures].
    + intros [] self' [Hround Hcached].
      eapply ensures_mono; [| |apply IH].
      * intros [] self'' [Hrest Hall].
        split; [by eapply loads_only_cons|].
        intros q Hq. apply elem_of_cons in Hq as [->|Hq]; [|auto].
        destruct Hrest as (_ & _ & Hkept & _). auto.
      * intros e self'' [-> Hrest]. split; [done|].
        by eapply loads_only_cons.
    + intros e self' [-> Hround]. split; [done|].
      eapply loads_only_cons; [done|apply loads_only_refl].
Qed.

(** [_connect] as a whole.  It raises nothing but [DBusException]; it gives
    the lock back and leaves no attention message either way.  When it
    returns, every screen of the service is cached, the screens that the
    service did not name are as they were, and the component is connected. *)
Lemma connect_ensures (self : G15DesktopComponent) :
  ensures (_connect PRI_LOW bus)
    (λ _ self',
       ∃ screen_paths,
         bus_get_object bus "/org/gnome15/Service" = Returned tt
         ∧ GetScreens bus "/org/gnome15/Service" = Returned screen_paths
         ∧ service self' = Some "/org/gnome15/Service"
         ∧ connected self' = true
         ∧ attention_messages self' = ∅
         ∧ lock self' = lock self
         ∧ last (calls self') = Some rebuild_desktop_component
         ∧ (∀ screen_path, screen_path ∈ screen_paths →
              is_Some (screens self' !! screen_path))
         ∧ (∀ other, other ∉ screen_paths →
              screens self' !! other = screens self !! other)
         ∧ (pages_of_low_priority PRI_LOW bus self →
              pages_of_low_priority PRI_LOW bus self'))
    (λ e self',
       e = DBusException
       ∧ attention_messages self' = ∅
       ∧ lock self' = lock self
       ∧ (∀ screen_path, is_Some (screens self !! screen_path) →
            is_Some (screens self' !! screen_path))
       ∧ (pages_of_low_priority PRI_LOW bus self →
            pages_of_low_priority PRI_LOW bus self')
       ∧ (bus_get_object bus "/org/gnome15/Service" = Returned tt →
            service self' = Some "/org/gnome15/Service"
            ∧ connected self' = true))
    self.
Proof.
  rewrite connect_unfold. unfold _reset_attention, get_object, invoke.
  unfold lock_acquire. repeat ensures_step.
  destruct (bus_get_object bus "/org/gnome15/Service") as [[]|]; [|done].
  repeat ensures_step.
  destruct (GetScreens bus "/org/gnome15/Service") as [screen_paths|];
    [|done].
  eapply ensures_mono; [| |apply load_screens_ensures].
  - intros [] self' [((Hlock & Hmessages & Hservice & Hconnected)
                      & Hother & Hkept & Hlow) Hall].
    repeat ensures_step. simpl in *.
    exists screen_paths. rewrite Hlock. rewrite last_snoc.
    repeat split; auto.
  - intros e self' [-> ((Hlock & Hmessages & Hservice & Hconnected)
                        & Hother & Hkept & Hlow)].
    simpl in *. rewrite Hlock. repeat split; auto.
Qed.

End LoadingLoops.

(** ** Connecting and starting *)

Section Connecting.

Context (PRI_LOW : Z) (bus : Bus).

(** X1: [_connect] either returns or raises [DBusException]; it never
    raises [KeyError], although [_add_page] looks the screen up without a
    test.  Either way the lock is back at the depth it had and there is no
    attention message left. *)
Theorem connect_fails_only_by_DBusException (self : G15DesktopComponent) :
  let run := _connect PRI_LOW bus self in
  (run.1 = inl tt ∨ run.1 = inr DBusException)
  ∧ lock run.2 = lock self
  ∧ attention_messages run.2 = ∅.
Proof.
  pose proof (connect_ensures PRI_LOW bus self) as Hconnect.
  unfold ensures in Hconnect. simpl.
  destruct (_connect PRI_LOW bus self) as [[[]|e] self']; simpl.
  - destruct Hconnect as (paths & _ & _ & _ & _ & Hmessages & Hlock & _).
    auto.
  - destruct Hconnect as (-> & Hmessages & Hlock & _). auto.
Qed.

(** X2: when [_connect] returns, the component holds the service proxy and
    is marked connected, the last call is a rebuild, every screen that
    [GetScreens] names is in the cache, and every screen that it does not
    name is as it was before: a screen cached earlier is not dropped. *)
Theorem connect_loads_every_screen (self : G15DesktopComponent) :
  (_connect PRI_LOW bus self).1 = inl tt →
  let self' := (_connect PRI_LOW bus self).2 in
  ∃ screen_paths,
    GetScreens bus "/org/gnome15/Service" = Returned screen_paths
    ∧ service self' = Some "/org/gnome15/Service"
    ∧ connected self' = true
    ∧ last (calls self') = Some rebuild_desktop_component
    ∧ (∀ screen_path, screen_path ∈ screen_paths →
         is_Some (screens self' !! screen_path))
    ∧ (∀ other, other ∉ screen_paths →
         screens self' !! other = screens self !! other).
Proof.
  pose proof (connect_ensures PRI_LOW bus self) as Hconnect.
  unfold ensures in Hconnect. simpl.
  destruct (_connect PRI_LOW bus self) as [[[]|e] self']; simpl; [|done].
  intros _.
  destruct Hconnect as (paths & _ & Hpaths & Hservice & Hconnected & _ & _
                        & Hlast & Hall & Hother & _).
  by exists paths.
Qed.

(** X3: [start] always returns, with the lock at the depth it had and the
    receiver of [NameOwnerChanged] added last.  It leaves the component
    either connected, with the service proxy and no attention message, or
    disconnected, without a service and with the one message that the
    service is not running. *)
Theorem start_always_returns (self : G15DesktopComponent) :
  let run := start PRI_LOW bus self in
  run.1 = inl tt
  ∧ lock run.2 = lock self
  ∧ last (calls run.2)
    = Some (add_signal_receiver cb_name_owner_changed
              "org.freedesktop.DBus" "NameOwnerChanged")
  ∧ ((_connect PRI_LOW bus self).1 = inl tt
     ∧ service run.2 = Some "/org/gnome15/Service"
     ∧ connected run.2 = true
     ∧ attention_messages run.2 = ∅
     ∨ (_connect PRI_LOW bus self).1 = inr DBusException
       ∧ service run.2 = None
       ∧ connected run.2 = false
       ∧ attention_messages run.2
         = {[ "service" := Some service_not_running ]}).
Proof.
  pose proof (connect_ensures PRI_LOW bus self) as Hconnect.
  unfold ensures in Hconnect.
  unfold start, try_except_DBusException, mbind, M_bind, invoke, update.
  simpl.
  destruct (_connect PRI_LOW bus self) as [[[]|e] self']; simpl.
  - destruct Hconnect as (paths & _ & _ & Hservice & Hconnected & Hmessages
                          & Hlock & _).
    rewrite last_snoc. split; [done|]. split; [done|]. split; [done|].
    by left.
  - destruct Hconnect as (-> & _ & Hlock & _).
    destruct (disconnect_run (set_calls self' (calls self' ++ [print_exc])))
      as (Hreturns & _ & Hservice & Hmessages & Hconnected & Hlock' & _).
    destruct (_disconnect (set_calls self' (calls self' ++ [print_exc])))
      as [result self'']. simpl in *. subst result. simpl.
    rewrite last_snoc. split; [done|]. split; [congruence|].
    split; [done|]. by right.
Qed.

End Connecting.

(** ** The items of the cache are pages of low priority at least *)

Section LowPriority.

Context (PRI_LOW : Z) (bus : Bus).

Lemma pages_of_low_priority_subcache (self self' : G15DesktopComponent) :
  (∀ screen_path screen',
     screens self' !! screen_path = Some screen' →
     ∃ screen,
       screens self !! screen_path = Some screen
       ∧ items screen' ⊆ items screen) →
  pages_of_low_priority PRI_LOW bus self →
  pages_of_low_priority PRI_LOW bus self'.
Proof.
  intros Hsub Hlow screen_path screen' key title Hscreen' Hitem.
  destruct (Hsub screen_path screen' Hscreen') as (screen & Hscreen & Hitems).
  apply (Hlow screen_path screen key title Hscreen).
  by eapply lookup_weaken.
Qed.

Lemma pages_of_low_priority_same_screens (self self' : G15DesktopComponent) :
  screens self' = screens self →
  pages_of_low_priority PRI_LOW bus self →
  pages_of_low_priority PRI_LOW bus self'.
Proof.
  intros Hsame. apply pages_of_low_priority_subcache.
  intros screen_path screen' Hscreen'. exists screen'.
  by rewrite <- Hsame.
Qed.

Lemma pages_of_low_priority_no_screens (self : G15DesktopComponent) :
  screens self = ∅ → pages_of_low_priority PRI_LOW bus self.
Proof.
  intros Hnone screen_path screen key title. by rewrite Hnone, lookup_empty.
Qed.

(** X4: if every item of every cached screen is what a remote page of
    priority [PRI_LOW] at least reports, under its number and with its
    title, then this is still so after [_connect], [_disconnect] and
    [start], and after the delivery of any signal but [PageTitleChanged],
    whether the method returns or raises. *)
Theorem pages_of_low_priority_kept (self : G15DesktopComponent) :
  pages_of_low_priority PRI_LOW bus self →
  pages_of_low_priority PRI_LOW bus (_connect PRI_LOW bus self).2
  ∧ pages_of_low_priority PRI_LOW bus (_disconnect self).2
  ∧ pages_of_low_priority PRI_LOW bus (start PRI_LOW bus self).2
  ∧ ∀ signal,
      (∀ screen_path page_sequence_number title,
         signal ≠ PageTitleChanged screen_path page_sequence_number title) →
      pages_of_low_priority PRI_LOW bus (receive PRI_LOW bus signal self).2.
Proof.
  intros Hlow.
  assert (∀ self0, pages_of_low_priority PRI_LOW bus self0 →
            pages_of_low_priority PRI_LOW bus (_connect PRI_LOW bus self0).2)
    as Hconnect.
  { intros self0 Hlow0.
    pose proof (connect_ensures PRI_LOW bus self0) as Hensures.
    unfold ensures in Hensures.
    destruct (_connect PRI_LOW bus self0) as [[[]|e] self']; simpl.
    - destruct Hensures as (paths & _ & _ & _ & _ & _ & _ & _ & _ & _ & Hkept).
      auto.
    - destruct Hensures as (_ & _ & _ & _ & Hkept & _). auto. }
  assert (∀ self0, pages_of_low_priority PRI_LOW bus self0 →
            pages_of_low_priority PRI_LOW bus (_disconnect self0).2)
    as Hdisconnect.
  { intros self0 Hlow0.
    destruct (disconnect_run self0) as (_ & Hscreens & _).
    destruct (bool_decide (service self0 ≠ None) && connected self0).
    - by apply pages_of_low_priority_no_screens.
    - by apply (pages_of_low_priority_same_screens self0). }
  split; [auto|]. split; [auto|]. split.
  - unfold start, try_except_DBusException, mbind, M_bind, invoke, update.
    simpl. specialize (Hconnect self Hlow).
    destruct (_connect PRI_LOW bus self) as [[[]|[key|]] self']; simpl in *;
      [done|done|].
    specialize (Hdisconnect (set_calls self' (calls self' ++ [print_exc]))
                  Hconnect).
    by destruct (_disconnect (set_calls self' (calls self' ++ [print_exc])))
      as [[[]|e] self''].
  - intros signal Hsignal.
    destruct signal as [screen_path|screen_path|screen_path number title
                       |screen_path number title|screen_path number
                       |screen_path message|screen_path]; simpl.
    + pose proof (add_screen_ensures PRI_LOW bus screen_path self) as Hadd.
      unfold ensures in Hadd.
      destruct (_add_screen bus screen_path self) as [[[]|e] self'].
      * destruct Hadd as ((_ & _ & _ & Hkept) & _). auto.
      * destruct Hadd as (_ & (_ & _ & _ & Hkept) & _). auto.
    + rewrite remove_screen_run. simpl.
      apply (pages_of_low_priority_subcache self); [|done]. simpl.
      intros p screen' Hscreen'. exists screen'.
      apply lookup_delete_Some in Hscreen' as [_ Hscreen']. done.
    + destruct (page_created_cases PRI_LOW bus screen_path number title self)
        as [Hsame|(screen & priority & seq_no & fetched & Hpriority & Hhigh
                   & Hnumber & Hscreen & Hitem & Htitle & Hrun)].
      * simpl in Hsame. by rewrite Hsame.
      * simpl in Hrun. rewrite Hrun. simpl.
        destruct (touches_only_add_item PRI_LOW bus screen_path self screen
                    (str seq_no) fetched Hscreen) as (_ & _ & _ & Hkept);
          [by eexists _, seq_no, priority|].
        auto.
    + by destruct (Hsignal screen_path number title).
    + unfold _page_deleting. run_M.
      destruct (screens self !! screen_path) as [screen|] eqn:Hscreen; simpl;
        [|done].
      destruct (items screen !! str number) as [old|] eqn:Hitem; simpl;
        [|done].
      apply (pages_of_low_priority_subcache self); [|done]. simpl.
      intros p screen'. rewrite lookup_alter. case_decide as Hp.
      * subst p. rewrite Hscreen. intros [= <-]. exists screen.
        split; [done|]. simpl. apply delete_subseteq.
      * intros Hscreen'. by exists screen'.
    + unfold _attention_requested. run_M.
      by destruct (attention_messages self !! screen_path).
    + unfold _attention_cleared. run_M.
      by destruct (attention_messages self !! screen_path).
Qed.

End LowPriority.

(** ** What the receivers leave alone *)

Section Frame.

Context (PRI_LOW : Z) (bus : Bus).

(** X5: whatever the remote side answers and whether the receiver returns
    or raises, the delivery of a signal leaves the service proxy, the
    connected flag and the depth of the lock as they were.  The two
    attention signals leave the cache of screens alone and touch only their
    own key of the attention messages.  The other signals leave the
    attention messages alone and touch only the screen they name; the three
    page signals neither add nor remove a screen. *)
Theorem receive_frame (signal : Signal) (self : G15DesktopComponent) :
  let self' := (receive PRI_LOW bus signal self).2 in
  service self' = service self
  ∧ connected self' = connected self
  ∧ lock self' = lock self
  ∧ match signal with
    | AttentionRequested screen_path _ | AttentionCleared screen_path =>
        screens self' = screens self
        ∧ ∀ other, other ≠ screen_path →
            attention_messages self' !! other
            = attention_messages self !! other
    | ScreenAdded screen_path | ScreenRemoved screen_path =>
        attention_messages self' = attention_messages self
        ∧ ∀ other, other ≠ screen_path →
            screens self' !! other = screens self !! other
    | PageCreated screen_path _ _
    | PageTitleChanged screen_path _ _
    | PageDeleting screen_path _ =>
        attention_messages self' = attention_messages self
        ∧ dom (screens self') = dom (screens self)
        ∧ ∀ other, other ≠ screen_path →
            screens self' !! other = screens self !! other
    end.
Proof.
  destruct signal as [screen_path|screen_path|screen_path number title
                     |screen_path number title|screen_path number
                     |screen_path message|screen_path]; simpl.
  - pose proof (add_screen_ensures PRI_LOW bus screen_path self) as Hadd.
    unfold ensures in Hadd.
    destruct (_add_screen bus screen_path self) as [[[]|e] self']; simpl.
    + by destruct Hadd as (((? & ? & ? & ?) & ? & _) & _).
    + by destruct Hadd as (_ & ((? & ? & ? & ?) & ? & _) & _).
  - rewrite remove_screen_run. simpl. repeat split.
    intros other Hother. by apply lookup_delete_ne.
  - destruct (page_created_cases PRI_LOW bus screen_path number title self)
      as [Hsame|(screen & priority & seq_no & fetched & _ & _ & _ & Hscreen
                 & _ & _ & Hrun)]; simpl in *.
    + by rewrite Hsame.
    + rewrite Hrun. simpl. repeat split.
      * apply dom_insert_lookup_L. by eexists.
      * intros other Hother. by apply lookup_insert_ne.
  - unfold _page_title_changed. run_M.
    destruct (screens self !! screen_path) as [screen|] eqn:Hscreen; simpl;
      [|done].
    repeat split.
    + apply dom_alter_L.
    + intros other Hother. by apply lookup_alter_ne.
  - unfold _page_deleting. run_M.
    destruct (screens self !! screen_path) as [screen|] eqn:Hscreen; simpl;
      [|done].
    destruct (items screen !! str number); simpl; [|done].
    repeat split.
    + apply dom_alter_L.
    + intros other Hother. by apply lookup_alter_ne.
  - unfold _attention_requested. run_M.
    destruct (attention_messages self !! screen_path); simpl; [done|].
    repeat split. intros other Hother. by apply dict_lookup_insert_ne.
  - unfold _attention_cleared. run_M.
    destruct (attention_messages self !! screen_path); simpl; [|done].
    repeat split. intros other Hother. by apply dict_lookup_delete_ne.
Qed.

End Frame.

(** ** A signal delivered twice *)

Section Twice.

Context (PRI_LOW : Z) (bus : Bus).

(** What [_add_screen] leaves in the cache depends on the remote screen
    only: nothing, when the device information cannot be had, or a screen
    made from what the remote screen reports. *)
Lemma add_screen_outcome (screen_path : string) :
  ∃ outcome : option G15Screen,
    ∀ self,
      (_add_screen bus screen_path self).2
      = match outcome with
        | Some screen =>
            set_screens self (<[screen_path := screen]> (screens self))
        | None => self
        end.
Proof.
  unfold _add_screen. run_M.
  destruct (bus_get_object bus screen_path) as [[]|];
    [|by exists None].
  destruct (GetDeviceInformation bus screen_path)
    as [[[[uid name] usb] fullname]|]; [|by exists None].
  destruct (IsAttentionRequested bus screen_path) as [[]|].
  - destruct (GetMessage bus screen_path) as [text|].
    + exists (Some (set_message (G15Screen__init__ screen_path fullname uid)
                      (Some text))).
      intros self. simpl.
      rewrite (alter_lookup_insert _ _
                 (G15Screen__init__ screen_path fullname uid))
        by apply lookup_insert_eq.
      by rewrite insert_insert_eq.
    + by exists (Some (G15Screen__init__ screen_path fullname uid)).
  - by exists (Some (G15Screen__init__ screen_path fullname uid)).
  - by exists (Some (G15Screen__init__ screen_path fullname uid)).
Qed.

(** X6: a signal that is delivered a second time, with the remote side
    answering as before, leaves the cache of screens and the attention
    messages as the first delivery left them.  The second delivery of
    [ScreenRemoved] does nothing but one more rebuild, and so does the
    second delivery of [PageTitleChanged] for a cached screen; for a screen
    that is not cached [PageTitleChanged] changes nothing either time.  The
    second delivery of any other signal changes nothing at all. *)
Theorem receive_twice (signal : Signal) (self : G15DesktopComponent) :
  let once := (receive PRI_LOW bus signal self).2 in
  let twice := (receive PRI_LOW bus signal once).2 in
  screens twice = screens once
  ∧ attention_messages twice = attention_messages once
  ∧ match signal with
    | ScreenRemoved _ =>
        twice = set_calls once (calls once ++ [rebuild_desktop_component])
    | PageTitleChanged screen_path _ _ =>
        match screens self !! screen_path with
        | Some _ =>
            twice = set_calls once (calls once ++ [rebuild_desktop_component])
        | None => once = self ∧ twice = self
        end
    | _ => twice = once
    end.
Proof.
  destruct signal as [screen_path|screen_path|screen_path number title
                     |screen_path number title|screen_path number
                     |screen_path message|screen_path]; simpl.
  - destruct (add_screen_outcome screen_path) as [[screen|] Houtcome].
    + rewrite !Houtcome. simpl. by rewrite insert_insert_eq.
    + by rewrite !Houtcome.
  - rewrite !remove_screen_run. simpl. by rewrite delete_delete_eq.
  - assert ((_page_created PRI_LOW bus screen_path number title
               (_page_created PRI_LOW bus screen_path number title self).2).2
            = (_page_created PRI_LOW bus screen_path number title self).2)
      as Hsame; [|by rewrite Hsame].
    destruct (page_created_cases PRI_LOW bus screen_path number title self)
      as [Hsame|(screen & priority & seq_no & fetched & _ & _ & Hnumber
                 & Hscreen & _ & _ & Hrun)]; simpl in *.
    + by rewrite !Hsame.
    + rewrite Hrun. simpl.
      destruct (page_created_cases PRI_LOW bus screen_path number title
                  (set_calls
                     (set_screens self
                        (<[screen_path :=
                             set_items screen
                               (<[str seq_no := fetched]> (items screen))]>
                           (screens self)))
                     (calls self ++ [rebuild_desktop_component])))
        as [Hsame|(screen' & _ & seq_no' & _ & _ & _ & Hnumber' & Hscreen'
                   & Hitem' & _)]; simpl in *; [done|].
      rewrite lookup_insert_eq in Hscreen'. injection Hscreen' as <-.
      assert (seq_no' = seq_no) as -> by congruence.
      simpl in Hitem'. by rewrite lookup_insert_eq in Hitem'.
  - unfold _page_title_changed. run_M.
    destruct (screens self !! screen_path) as [screen|] eqn:Hscreen; simpl.
    + rewrite lookup_alter_eq, Hscreen. simpl.
      assert (alter
                (λ screen0 : G15Screen,
                   set_items screen0 (<[str number:=title]> (items screen0)))
                screen_path
                (alter
                   (λ screen0 : G15Screen,
                      set_items screen0
                        (<[str number:=title]> (items screen0)))
                   screen_path (screens self))
              = alter
                  (λ screen0 : G15Screen,
                     set_items screen0 (<[str number:=title]> (items screen0)))
                  screen_path (screens self)) as ->.
      { apply map_eq. intros p.
        destruct (decide (p = screen_path)) as [->|Hne].
        - rewrite !lookup_alter_eq, Hscreen. simpl.
          unfold set_items. simpl. by rewrite insert_insert_eq.
        - by rewrite !lookup_alter_ne. }
      by destruct self.
    + rewrite Hscreen. simpl. by destruct self.
  - unfold _page_deleting. run_M.
    destruct (screens self !! screen_path) as [screen|] eqn:Hscreen; simpl.
    + destruct (items screen !! str number) as [old|] eqn:Hitem; simpl.
      * rewrite lookup_alter_eq, Hscreen. simpl. rewrite lookup_delete_eq.
        simpl. split; [done|]. split; [done|]. by destruct self.
      * rewrite Hscreen. simpl. rewrite Hitem. simpl.
        split; [done|]. split; [done|]. by destruct self.
    + rewrite Hscreen. simpl. split; [done|]. split; [done|].
      by destruct self.
  - unfold _attention_requested. run_M.
    destruct (attention_messages self !! screen_path) eqn:Hin; simpl.
    + by rewrite Hin.
    + by rewrite dict_lookup_insert_eq.
  - unfold _attention_cleared. run_M.
    destruct (attention_messages self !! screen_path) eqn:Hin; simpl.
    + by rewrite dict_lookup_delete_eq.
    + by rewrite Hin.
Qed.

End Twice.

(** ** Round trips *)

(** X7: an attention request for a screen that has none, followed by its
    clearing, leaves the attention messages as they were; each of the two
    steps rebuilds. *)
Theorem attention_requested_then_cleared
    (screen_path : string) (message : option string)
    (self : G15DesktopComponent) :
  attention_messages self !! screen_path = None →
  let requested := (_attention_requested screen_path message self).2 in
  let cleared := (_attention_cleared screen_path requested).2 in
  attention_messages requested !! screen_path = Some message
  ∧ cleared
    = set_calls self
        (calls self ++ [rebuild_desktop_component; rebuild_desktop_component]).
Proof.
  intros Hnone. unfold _attention_requested, _attention_cleared. run_M.
  rewrite Hnone. simpl. rewrite dict_lookup_insert_eq. simpl.
  split; [done|]. rewrite (dict_delete_insert_id _ _ _ Hnone), <- app_assoc.
  by destruct self.
Qed.

Lemma attention_requested_then_cleared_witness :
  (_attention_cleared "/s1"
     (_attention_requested "/s1" (Some "Low battery") connected_component).2).2
  = set_calls connected_component
      (calls connected_component
         ++ [rebuild_desktop_component; rebuild_desktop_component]).
Proof.
  exact (proj2 (attention_requested_then_cleared
                  "/s1" (Some "Low battery") connected_component eq_refl)).
Defined.

Section RoundTrips.

Context (PRI_LOW : Z) (bus : Bus).

(** X8: a page that is created on a cached screen, with a priority of
    [PRI_LOW] at least and a number that the screen does not have yet, and
    then deleted under the same number, leaves the cache of screens as it
    was; each of the two steps rebuilds. *)
Theorem page_created_then_deleting
    (screen_path : string) (page_sequence_number : Z) (page_title : string)
    (self : G15DesktopComponent) (screen : G15Screen)
    (priority : Z) (title : string) :
  let page := "/org/gnome15/Page" +:+ str page_sequence_number in
  screens self !! screen_path = Some screen →
  items screen !! str page_sequence_number = None →
  bus_get_object bus page = Returned tt →
  GetPriority bus page = Returned priority →
  PRI_LOW ≤ priority →
  GetSequenceNumber bus page = Returned page_sequence_number →
  GetTitle bus page = Returned title →
  let created :=
    (_page_created PRI_LOW bus screen_path page_sequence_number page_title
       self).2 in
  let deleted := (_page_deleting screen_path page_sequence_number created).2 in
  (∃ screen',
     screens created !! screen_path = Some screen'
     ∧ items screen' !! str page_sequence_number = Some title)
  ∧ deleted
    = set_calls self
        (calls self ++ [rebuild_desktop_component; rebuild_desktop_component]).
Proof.
  intros page Hscreen Hitem Hobject Hpriority Hlow Hnumber Htitle.
  unfold _page_created, _add_page, _page_deleting. run_M. fold page.
  rewrite Hobject. simpl. rewrite Hpriority. simpl.
  rewrite bool_decide_true by done. rewrite Hnumber. simpl.
  rewrite Hscreen. simpl. rewrite Hitem. simpl. rewrite Htitle. simpl.
  rewrite !lookup_alter_eq, Hscreen. simpl. rewrite lookup_insert_eq. simpl.
  split.
  - eexists. split; [done|]. simpl. apply lookup_insert_eq.
  - assert (alter
              (λ screen0 : G15Screen,
                 set_items screen0
                   (delete (str page_sequence_number) (items screen0)))
              screen_path
              (alter
                 (λ screen0 : G15Screen,
                    set_items screen0
                      (<[str page_sequence_number:=title]> (items screen0)))
                 screen_path (screens self))
            = screens self) as ->.
    { apply map_eq. intros p.
      destruct (decide (p = screen_path)) as [->|Hne].
      - rewrite !lookup_alter_eq, Hscreen. simpl. unfold set_items. simpl.
        rewrite (delete_insert_id _ _ _ Hitem). by destruct screen.
      - by rewrite !lookup_alter_ne. }
    rewrite <- app_assoc. by destruct self.
Qed.

(** X9: a screen that is added under a path that is not cached, and then
    removed, leaves the cache of screens as it was, whatever the remote
    screen answers. *)
Theorem add_screen_then_remove_screen
    (screen_path : string) (self : G15DesktopComponent) :
  screens self !! screen_path = None →
  screens (_remove_screen screen_path (_add_screen bus screen_path self).2).2
  = screens self.
Proof.
  intros Hnone. rewrite remove_screen_run. simpl.
  destruct (add_screen_outcome bus screen_path) as [[screen|] Houtcome];
    rewrite Houtcome; simpl.
  - by apply delete_insert_id.
  - by apply delete_id.
Qed.

(** X10: for a screen that is not cached, [_page_created] leaves the
    component as it was.  It returns when the priority of the page is below
    [PRI_LOW], and otherwise raises [KeyError] for the screen, after it has
    asked the page for its number, or [DBusException] when that call
    fails. *)
Theorem page_created_unknown_screen
    (screen_path : string) (page_sequence_number : Z) (page_title : string)
    (self : G15DesktopComponent) (priority : Z) :
  let page := "/org/gnome15/Page" +:+ str page_sequence_number in
  let run :=
    _page_created PRI_LOW bus screen_path page_sequence_number page_title self in
  screens self !! screen_path = None →
  bus_get_object bus page = Returned tt →
  GetPriority bus page = Returned priority →
  run.2 = self
  ∧ (priority < PRI_LOW → run.1 = inl tt)
  ∧ (PRI_LOW ≤ priority →
     match GetSequenceNumber bus page with
     | Returned _ => run.1 = inr (KeyError screen_path)
     | TransportFault => run.1 = inr DBusException
     end).
Proof.
  intros page run Hnone Hobject Hpriority. subst run.
  unfold _page_created, _add_page. run_M. fold page.
  rewrite Hobject. simpl. rewrite Hpriority. simpl.
  case_bool_decide as Hlow; simpl.
  - destruct (GetSequenceNumber bus page) as [number|]; simpl.
    + rewrite Hnone. simpl. split; [by destruct self|]. split; [lia|done].
    + split; [by destruct self|]. split; [lia|done].
  - split; [by destruct self|]. split; [done|lia].
Qed.

End RoundTrips.

Lemma page_created_then_deleting_witness :
  (_page_deleting "/s1" 5
     (_page_created example_PRI_LOW bus_one_screen "/s1" 5 "Weather"
        (set_screens connected_component
           {[ "/s1" := G15Screen__init__ "/s1" "Model One" "U1" ]})).2).2
  = set_calls
      (set_screens connected_component
         {[ "/s1" := G15Screen__init__ "/s1" "Model One" "U1" ]})
      (calls connected_component
         ++ [rebuild_desktop_component; rebuild_desktop_component]).
Proof.
  pose (fresh := G15Screen__init__ "/s1" "Model One" "U1").
  pose (self := set_screens connected_component {[ "/s1" := fresh ]}).
  assert (screens self !! "/s1" = Some fresh) as Hfresh
    by (vm_compute; reflexivity).
  assert (items fresh !! str 5 = None) as Hitem by (vm_compute; reflexivity).
  assert (example_PRI_LOW ≤ 20) as Hlow by (unfold example_PRI_LOW; lia).
  exact (proj2 (page_created_then_deleting example_PRI_LOW bus_one_screen
                  "/s1" 5 "Weather" self fresh 20 "Weather"
                  Hfresh Hitem eq_refl eq_refl Hlow eq_refl eq_refl)).
Defined.

Lemma add_screen_then_remove_screen_witness :
  screens (_remove_screen "/s2"
             (_add_screen bus_one_screen "/s2" connected_component).2).2
  = screens connected_component.
Proof.
  assert (screens connected_component !! "/s2" = None) as Hnone
    by (vm_compute; reflexivity).
  exact (add_screen_then_remove_screen bus_one_screen "/s2"
           connected_component Hnone).
Defined.

Lemma page_created_unknown_screen_witness :
  (_page_created example_PRI_LOW bus_one_screen "/s7" 5 "Weather"
     connected_component).2 = connected_component
  ∧ (_page_created example_PRI_LOW bus_one_screen "/s7" 5 "Weather"
       connected_component).1 = inr (KeyError "/s7").
Proof.
  assert (screens connected_component !! "/s7" = None) as Hnone
    by (vm_compute; reflexivity).
  assert (example_PRI_LOW ≤ 20) as Hlow by (unfold example_PRI_LOW; lia).
  destruct (page_created_unknown_screen example_PRI_LOW bus_one_screen
              "/s7" 5 "Weather" connected_component 20
              Hnone eq_refl eq_refl) as (Hsame & _ & Hraise).
  split; [exact Hsame|exact (Hraise Hlow)].
Defined.

(** ** More on disconnecting and on the owner of the bus name *)

(** X11: the calls of [_disconnect], in order: the seven calls of
    [remove_signal_receiver], one rebuild for every cached screen when the
    component had a service and was connected, and three more rebuilds.  No
    call removes the receivers that [_connect] adds for [ScreenAdded] and
    [ScreenRemoved], which are [_add_screen] and [_remove_screen]. *)
Theorem disconnect_calls (self : G15DesktopComponent) :
  let removed :=
    if bool_decide (service self ≠ None) && connected self
    then size (screens self) else 0%nat in
  let made :=
    [remove_signal_receiver cb_page_created "org.gnome15.Service" "ScreenAdded";
     remove_signal_receiver cb_page_title_changed "org.gnome15.Service" "ScreenRemoved";
     remove_signal_receiver cb_page_created "org.gnome15.Screen" "PageCreated";
     remove_signal_receiver cb_page_title_changed "org.gnome15.Screen" "PageTitleChanged";
     remove_signal_receiver cb_page_deleting "org.gnome15.Screen" "PageDeleting";
     remove_signal_receiver cb_attention_requested "org.gnome15.Screen" "AttentionRequested";
     remove_signal_receiver cb_attention_cleared "org.gnome15.Screen" "AttentionCleared"]
    ++ replicate (removed + 3) rebuild_desktop_component in
  calls (_disconnect self).2 = calls self ++ made
  ∧ ∀ dbus_interface signal_name,
      (remove_signal_receiver cb_add_screen dbus_interface signal_name
         ∉ made)
      ∧ (remove_signal_receiver cb_remove_screen dbus_interface signal_name
           ∉ made).
Proof.
  simpl. split.
  - unfold _disconnect, _reset_attention, _attention_requested.
    unfold mbind, M_bind, invoke, update, get_self. simpl.
    destruct (bool_decide (service self ≠ None) && connected self); simpl.
    + rewrite remove_screens_run. simpl.
      rewrite length_fmap, length_map_to_list, replicate_add.
      by rewrite <- !app_assoc.
    + unfold mret, M_ret. simpl. by rewrite <- !app_assoc.
  - intros dbus_interface signal_name.
    split; intros Hin;
      repeat (apply elem_of_cons in Hin as [Hin|Hin]; [discriminate|]);
      apply elem_of_replicate in Hin as [Hin _]; discriminate.
Qed.

Section OwnerAcquired.

Context (PRI_LOW : Z) (bus : Bus).

(** X12: when the bus name gets an owner and the component has no service,
    [_name_owner_changed] runs [_connect] and nothing else.  A
    [DBusException] that [_connect] raises after it has got the service
    proxy is not caught and is not followed by a disconnect: the component
    keeps the proxy, is marked connected and has no attention message, and
    a later signal that the name has an owner does nothing. *)
Theorem owner_acquired_failure_stays_connected
    (self : G15DesktopComponent) (new_owner : string) :
  service self = None →
  let run :=
    _name_owner_changed PRI_LOW bus "org.gnome15.Gnome15" "" new_owner self in
  run = _connect PRI_LOW bus self
  ∧ (run.1 = inr DBusException →
     bus_get_object bus "/org/gnome15/Service" = Returned tt →
     service run.2 = Some "/org/gnome15/Service"
     ∧ connected run.2 = true
     ∧ attention_messages run.2 = ∅
     ∧ ∀ later_owner,
         _name_owner_changed PRI_LOW bus "org.gnome15.Gnome15" ""
           later_owner run.2
         = (inl tt, run.2)).
Proof.
  intros Hservice.
  assert (_name_owner_changed PRI_LOW bus "org.gnome15.Gnome15" "" new_owner
            self = _connect PRI_LOW bus self) as ->.
  { unfold _name_owner_changed. rewrite !bool_decide_true by done.
    unfold mbind, M_bind, get_self. by rewrite bool_decide_true by done. }
  simpl. split; [done|]. intros Hfailure Hproxy.
  pose proof (connect_ensures PRI_LOW bus self) as Hensures.
  unfold ensures in Hensures.
  destruct (_connect PRI_LOW bus self) as [[[]|e] self']; simpl in *;
    [done|].
  destruct Hensures as (_ & Hmessages & _ & _ & _ & Hlink).
  destruct (Hlink Hproxy) as [Hproxy' Hconnected].
  split; [done|]. split; [done|]. split; [done|].
  intros later_owner. unfold _name_owner_changed.
  rewrite !bool_decide_true by done. unfold mbind, M_bind, get_self.
  rewrite bool_decide_false; [done|]. by rewrite Hproxy'.
Qed.

(** X13: [check_attention] after [_disconnect] shows the message that the
    service is not running, whatever attention messages there were before;
    after [_connect] it clears the attention, whether [_connect] returned or
    raised. *)
Theorem check_attention_after_disconnect_and_connect
    (self : G15DesktopComponent) :
  check_attention (_disconnect self).2
  = (inl tt,
     set_calls (_disconnect self).2
       (calls (_disconnect self).2 ++ [attention (Some service_not_running)]))
  ∧ check_attention (_connect PRI_LOW bus self).2
    = (inl tt,
       set_calls (_connect PRI_LOW bus self).2
         (calls (_connect PRI_LOW bus self).2 ++ [clear_attention])).
Proof.
  rewrite !check_attention_run. split.
  - by destruct (disconnect_run self) as (_ & _ & _ & -> & _).
  - pose proof (connect_ensures PRI_LOW bus self) as Hensures.
    unfold ensures in Hensures.
    destruct (_connect PRI_LOW bus self) as [[[]|e] self']; simpl.
    + by destruct Hensures as (paths & _ & _ & _ & _ & -> & _).
    + by destruct Hensures as (_ & -> & _).
Qed.

End OwnerAcquired.

(** ** The properties above, on the example service *)

Lemma connect_loads_every_screen_witness :
  ∃ screen_paths,
    GetScreens bus_one_screen "/org/gnome15/Service" = Returned screen_paths
    ∧ service
        (_connect example_PRI_LOW bus_one_screen G15DesktopComponent__init__).2
      = Some "/org/gnome15/Service"
    ∧ connected
        (_connect example_PRI_LOW bus_one_screen G15DesktopComponent__init__).2
      = true
    ∧ last
        (calls
           (_connect example_PRI_LOW bus_one_screen
              G15DesktopComponent__init__).2)
      = Some rebuild_desktop_component
    ∧ (∀ screen_path, screen_path ∈ screen_paths →
         is_Some
           (screens
              (_connect example_PRI_LOW bus_one_screen
                 G15DesktopComponent__init__).2 !! screen_path))
    ∧ (∀ other, other ∉ screen_paths →
         screens
           (_connect example_PRI_LOW bus_one_screen
              G15DesktopComponent__init__).2 !! other
         = screens G15DesktopComponent__init__ !! other).
Proof.
  assert ((_connect example_PRI_LOW bus_one_screen
             G15DesktopComponent__init__).1 = inl tt) as Hreturns
    by (vm_compute; reflexivity).
  exact (connect_loads_every_screen example_PRI_LOW bus_one_screen
           G15DesktopComponent__init__ Hreturns).
Defined.

Lemma pages_of_low_priority_kept_witness :
  low_priority_page example_PRI_LOW bus_one_screen "5" "Weather".
Proof.
  assert (pages_of_low_priority example_PRI_LOW bus_one_screen
            G15DesktopComponent__init__) as Hinit
    by (apply pages_of_low_priority_no_screens; reflexivity).
  destruct (pages_of_low_priority_kept example_PRI_LOW bus_one_screen
              G15DesktopComponent__init__ Hinit) as (_ & _ & Hstart & _).
  assert ((start example_PRI_LOW bus_one_screen
             G15DesktopComponent__init__).2 = connected_component) as Hrun
    by (vm_compute; reflexivity).
  rewrite Hrun in Hstart.
  assert (screens connected_component !! "/s1" = Some screen_s1) as Hs1
    by (vm_compute; reflexivity).
  assert (items screen_s1 !! "5" = Some "Weather") as Hitem
    by (vm_compute; reflexivity).
  exact (Hstart "/s1" screen_s1 "5" "Weather" Hs1 Hitem).
Defined.

Lemma owner_acquired_failure_witness :
  (_name_owner_changed example_PRI_LOW bus_breaking
     "org.gnome15.Gnome15" "" ":1.42" G15DesktopComponent__init__).1
  = inr DBusException
  ∧ service
      (_name_owner_changed example_PRI_LOW bus_breaking
         "org.gnome15.Gnome15" "" ":1.42" G15DesktopComponent__init__).2
    = Some "/org/gnome15/Service"
  ∧ connected
      (_name_owner_changed example_PRI_LOW bus_breaking
         "org.gnome15.Gnome15" "" ":1.42" G15DesktopComponent__init__).2
    = true.
Proof.
  destruct (owner_acquired_failure_stays_connected example_PRI_LOW
              bus_breaking G15DesktopComponent__init__ ":1.42" eq_refl)
    as [_ Hfailure].
  assert ((_name_owner_changed example_PRI_LOW bus_breaking
             "org.gnome15.Gnome15" "" ":1.42" G15DesktopComponent__init__).1
          = inr DBusException) as Hraised
    by (vm_compute; reflexivity).
  destruct (Hfailure Hraised eq_refl) as (Hservice & Hconnected & _).
  split; [exact Hraised|]. split; [exact Hservice|exact Hconnected].
Defined.

(** [PageTitleChanged] is left out of the signals that keep the items pages
    of low priority: it writes the title under whatever number the signal
    carries, also for a page that was never put in. *)
Example title_change_adds_any_page :
  pages_of_low_priority example_PRI_LOW bus_one_screen connected_component
  ∧ ¬ pages_of_low_priority example_PRI_LOW bus_one_screen
        (receive example_PRI_LOW bus_one_screen
           (PageTitleChanged "/s1" 9 "Clock") connected_component).2.
Proof.
  split.
  - intros p screen key title Hscreen Hitem.
    change (screens connected_component) with
      ({[ "/s1" := screen_s1 ]} : gmap string G15Screen) in Hscreen.
    apply lookup_singleton_Some in Hscreen as [<- <-].
    change (items screen_s1) with
      ({[ "5" := "Weather" ]} : gmap string string) in Hitem.
    apply lookup_singleton_Some in Hitem as [<- <-].
    exists "/org/gnome15/Page5", 5, 20. by vm_compute.
  - intros Hlow.
    destruct (Hlow "/s1" (set_items screen_s1 (<["9":="Clock"]> (items screen_s1)))
                "9" "Clock") as (page & number & priority & Hnumber & Hkey & _).
    + vm_compute. reflexivity.
    + vm_compute. reflexivity.
    + simpl in Hnumber. injection Hnumber as <-. by vm_compute in Hkey.
Qed.
